(** * FlowPic traffic conversion: a shallow embedding

    This development embeds the two programs of the repository,

    - [traffic_csv_converter.py]: CSV session records to FlowPic histograms,
    - [dataset_generator.py]: per-class arrays to labelled test sets,

    and states the properties of their natural-language specification about
    them.

    Modelling conventions.
    - A Python [str] is a [string]; a CSV row is a [list string].
    - A Python [int] is a [Z].  A Python [float] is a rational [Q]: the value
      of a finite float, with exact arithmetic; rounding, [nan] and [inf] are
      not modelled.
    - A one-dimensional numpy array is a [list]; an array of FlowPics is the
      list of its rows along axis 0.
    - A Python exception is a value of [exn]; code that can raise returns a
      [result], and the per-file counters are threaded through a small
      state-and-exception monad.
    - [int()], the element conversions of [np.array], and the histogram
      routine [session_2d_histogram] (module [sessions_plotter], which is not
      part of the sources at hand) are fields of the class [Runtime];
      scikit-learn's shuffled split and numpy's generators are fields of
      the class [Sklearn].
    - The file system is a record of the answers it gives: the paths a
      pattern matches, the entries of a directory, the rows or the array
      of a file.  What a program writes or prints is a list of events. *)

From stdpp Require Import base option list strings gmap sorting.
From Stdlib Require Import Ascii ZArith QArith Qround Lia Lqa.

#[local] Open Scope Z_scope.

(** * Python and numpy primitives *)

Module Py.

Inductive exn : Type :=
| ValueError
| IndexError
| KeyError.

Inductive result (A : Type) : Type :=
| Ok (a : A)
| Raise (e : exn).

Arguments Ok {A} a.
Arguments Raise {A} e.

Definition rbind {A B : Type} (r : result A) (k : A -> result B) : result B :=
  match r with
  | Ok a => k a
  | Raise e => Raise e
  end.

#[export] Instance result_ret : MRet result := @Ok.
#[export] Instance result_bind : MBind result := fun A B k r => rbind r k.

Definition of_option {A : Type} (e : exn) (o : option A) : result A :=
  match o with
  | Some a => Ok a
  | None => Raise e
  end.

(** [len(l)] *)
Definition len {A : Type} (l : list A) : Z := Z.of_nat (length l).

(** A slice bound [i] of a sequence of length [n], as Python clamps it:
    a negative bound counts from the end. *)
Definition clamp (n i : Z) : Z :=
  if i <? 0 then Z.max (i + n) 0 else Z.min i n.

(** [l[lo:hi]]; [hi = None] stands for an omitted upper bound. *)
Definition slice {A : Type} (l : list A) (lo : Z) (hi : option Z) : list A :=
  let n := len l in
  let lo' := clamp n lo in
  let hi' := match hi with Some h => clamp n h | None => n end in
  take (Z.to_nat (hi' - lo')) (drop (Z.to_nat lo') l).

(** [l[i]]: a negative index counts from the end; out of range raises
    [IndexError]. *)
Definition getitem {A : Type} (l : list A) (i : Z) : result A :=
  let j := if i <? 0 then i + len l else i in
  if j <? 0 then Raise IndexError
  else of_option IndexError (l !! Z.to_nat j).

(** [range(n)] *)
Definition range (n : Z) : list Z := Z.of_nat <$> seq 0 (Z.to_nat n).

(** [int(x)] of a float: truncation toward zero. *)
Definition int_of_float (x : Q) : Z := Z.quot (Qnum x) (Z.pos (Qden x)).

(** [np.array(l, dtype=...)] of a list of strings: every element is
    converted, and the first one that does not convert raises
    [ValueError]. *)
Fixpoint np_array {B : Type} (conv : string -> option B) (l : list string)
  : result (list B) :=
  match l with
  | [] => Ok []
  | s :: l' =>
      match conv s with
      | None => Raise ValueError
      | Some b => bs ← np_array conv l'; Ok (b :: bs)
      end
  end.

(** The elements of [a] at the positions where [mask] is true, for lists of
    equal length. *)
Fixpoint select {A : Type} (a : list A) (mask : list bool) : list A :=
  match a, mask with
  | x :: a', b :: mask' => if b then x :: select a' mask' else select a' mask'
  | _, _ => []
  end.

(** [a[mask]] for a boolean array [mask]: numpy raises [IndexError] when
    the two lengths differ. *)
Definition mask_index {A : Type} (a : list A) (mask : list bool)
  : result (list A) :=
  if decide (length a = length mask) then Ok (select a mask)
  else Raise IndexError.

(** [s.lower()], on the ASCII letters. *)
Definition lower_ascii (c : ascii) : ascii :=
  let n := nat_of_ascii c in
  if (65 <=? n)%nat && (n <=? 90)%nat then ascii_of_nat (n + 32) else c.

Fixpoint lower (s : string) : string :=
  match s with
  | EmptyString => EmptyString
  | String c s' => String (lower_ascii c) (lower s')
  end.

(** [sub in s] *)
Fixpoint contains (sub s : string) : bool :=
  String.prefix sub s ||
  match s with
  | EmptyString => false
  | String _ s' => contains sub s'
  end.

(** [s.endswith(suffix)] *)
Definition endswith (s suffix : string) : bool :=
  let n := String.length s in
  let k := String.length suffix in
  (k <=? n)%nat && String.eqb (String.substring (n - k) k s) suffix.

(** [os.path.join(a, b)] on POSIX paths. *)
Definition path_join (a b : string) : string :=
  if String.prefix "/" b then b
  else if String.eqb a "" || endswith a "/" then a +:+ b
  else a +:+ "/" +:+ b.

(** [sorted(l)] of a list of strings: code-point order. *)
Definition str_le (s1 s2 : string) : Prop := String.leb s1 s2 = true.

#[export] Instance str_le_dec (s1 s2 : string) : Decision (str_le s1 s2).
Proof. unfold str_le. apply _. Defined.

Definition sorted (l : list string) : list string := merge_sort str_le l.

End Py.

(** * [traffic_csv_converter.py] *)

Module Converter.
Import Py.

(** What the program takes from the Python runtime, numpy and
    [sessions_plotter]. *)
Class Runtime : Type := {
  (** [int(s)]; [None] when it raises *)
  py_int : string -> option Z;
  (** conversion of one element by [np.array(_, dtype=float)] *)
  np_float : string -> option Q;
  (** conversion of one element by [np.array(_, dtype=int)] *)
  np_int : string -> option Z;
  (** a 2D histogram *)
  flowpic : Type;
  (** the number of cells of a histogram (fixed by configuration) *)
  flowpic_size : Z;
  (** the histogram of a segment; it is taken to return normally *)
  session_2d_histogram : list Q -> list Z -> flowpic
}.

(** What the program reads from the file system. *)
Record FileSystem : Type := {
  (** [glob.glob(CLASSES_DIR)] *)
  glob : list string;
  (** [os.path.isdir] *)
  isdir : string -> bool;
  (** [os.listdir] *)
  listdir : string -> list string;
  (** the rows [csv.reader] yields for a file; [None] when the file cannot
      be opened or read *)
  read_csv : string -> option (list (list string))
}.

Definition TPS : Z := 60.
Definition DELTA_T : Z := 60.
Definition MIN_TPS : Z := 50.

Section Conversion.
Context `{RT : Runtime}.

(** The local variables [dataset], [counter] and [skipped_segments] of
    [traffic_csv_converter]. *)
Record conv_state : Type := {
  dataset : list (list flowpic);
  counter : Z;
  skipped_segments : Z
}.

Definition init_state : conv_state :=
  {| dataset := []; counter := 0; skipped_segments := 0 |}.

(** Statements: they update the state and finish or raise.  An exception
    keeps the updates made before it. *)
Definition M (A : Type) : Type := conv_state -> result A * conv_state.

Definition ret {A : Type} (a : A) : M A := fun st => (Ok a, st).

Definition bind {A B : Type} (m : M A) (k : A -> M B) : M B :=
  fun st =>
    match m st with
    | (Ok a, st') => k a st'
    | (Raise e, st') => (Raise e, st')
    end.

Definition lift {A : Type} (r : result A) : M A := fun st => (r, st).

Definition modify (f : conv_state -> conv_state) : M unit :=
  fun st => (Ok tt, f st).

(** [try: m  except Exception: handler] *)
Definition try_except (m : M unit) (handler : exn -> M unit) : M unit :=
  fun st =>
    match m st with
    | (Ok _, st') => (Ok tt, st')
    | (Raise e, st') => handler e st'
    end.

(** [for x in l: body] *)
Fixpoint for_each {A : Type} (l : list A) (body : A -> M unit) : M unit :=
  match l with
  | [] => ret tt
  | x :: l' => bind (body x) (fun _ => for_each l' body)
  end.

#[export] Instance M_ret : MRet M := @ret.
#[export] Instance M_bind : MBind M := fun A B k m => bind m k.

(** [dataset.append([h]); counter += 1] *)
Definition append_flowpic (h : flowpic) (st : conv_state) : conv_state :=
  {| dataset := dataset st ++ [[h]];
     counter := counter st + 1;
     skipped_segments := skipped_segments st |}.

(** [skipped_segments += 1] *)
Definition skip (st : conv_state) : conv_state :=
  {| dataset := dataset st;
     counter := counter st;
     skipped_segments := skipped_segments st + 1 |}.

(** ** Record parser (lines 84 to 92)

    [Ok None] is the [continue] of line 88. *)
Definition parse_row (row : list string)
  : result (option (Z * list Q * list Z)) :=
  field ← getitem row 7;
  length ← of_option ValueError (py_int field);
  if (8 + length >? len row) || (9 + length >? len row) then Ok None
  else
    ts ← np_array np_float (slice row 8 (Some (8 + length)));
    sizes ← np_array np_int (slice row (9 + length) None);
    Ok (Some (length, ts, sizes)).

(** ** Session segmenter (lines 96 to 113) *)

Definition Qgtb (x y : Q) : bool := negb (Qle_bool x y).

(** [(ts >= t * DELTA_T) & (ts <= (t * DELTA_T + TPS))] *)
Definition in_window (t : Z) (x : Q) : bool :=
  Qle_bool (inject_Z (t * DELTA_T)) x
  && Qle_bool x (inject_Z (t * DELTA_T + TPS)).

Definition window_mask (ts : list Q) (t : Z) : list bool :=
  in_window t <$> ts.

(** [len(ts_mask) > 10 and (ts_mask[-1] - ts_mask[0]) > MIN_TPS] *)
Definition is_valid (ts_mask : list Q) : result bool :=
  if len ts_mask >? 10 then
    l ← getitem ts_mask (-1);
    f ← getitem ts_mask 0;
    Ok (Qgtb (l - f) (inject_Z MIN_TPS))
  else Ok false.

(** The body of the loop over [t]. *)
Definition segment_body (ts : list Q) (sizes : list Z) (t : Z) : M unit :=
  let mask := window_mask ts t in
  ts_mask ← lift (mask_index ts mask);
  sizes_mask ← lift (mask_index sizes mask);
  valid ← lift (is_valid ts_mask);
  if valid : bool then
    modify (append_flowpic (session_2d_histogram ts_mask sizes_mask))
  else modify skip.

(** [int(ts[-1] / DELTA_T - TPS / DELTA_T) + 1] *)
Definition window_count (last_ts : Q) : Z :=
  int_of_float (last_ts / inject_Z DELTA_T - inject_Z TPS / inject_Z DELTA_T)
  + 1.

(** The values [t] takes in the loop of line 97. *)
Definition window_indices (last_ts : Q) : list Z :=
  range (window_count last_ts).

Definition segment_session (length : Z) (ts : list Q) (sizes : list Z)
  : M unit :=
  if length >? 10 then
    last_ts ← lift (getitem ts (-1));
    for_each (window_indices last_ts) (segment_body ts sizes)
  else modify skip.

(** ** One row of the file (lines 77 to 122) *)
Definition process_row (row : list string) : M unit :=
  if len row <? 9 then ret tt
  else
    try_except
      (p ← lift (parse_row row);
       match p with
       | None => ret tt
       | Some (length, ts, sizes) => segment_session length ts sizes
       end)
      (fun _ => modify skip).

(** ** One file *)

(** [np.asarray(dataset)] of a list of one-element lists of histograms has
    shape [(N, 1, H, W)]; [size] is its number of cells. *)
Definition size (ds : list (list flowpic)) : Z := len ds * flowpic_size.

Definition traffic_csv_converter (fs : FileSystem) (file_path : string)
  : list (list flowpic) :=
  match read_csv fs file_path with
  | None => []
  | Some rows =>
      match for_each rows process_row init_state with
      | (Ok _, st) => dataset st
      | (Raise _, _) => []
      end
  end.

(** ** One class directory, and all of them

    What the program does to the outside is recorded as a list of events:
    the message of line 187, the files opened, the arrays exported. *)
Inductive event : Type :=
| Working_on (class_dir : string)
| Opened (file_path : string)
| Exported (class_dir : string) (ds : list (list flowpic)).

Definition csv_files_in_dir (fs : FileSystem) (dir_path : string)
  : list string :=
  path_join dir_path <$>
    filter (fun fn => endswith fn ".csv" = true) (listdir fs dir_path).

(** The pair of the returned array and of the files opened. *)
Definition traffic_class_converter (fs : FileSystem) (dir_path : string)
  : list (list flowpic) * list event :=
  let csv_files := csv_files_in_dir fs dir_path in
  let dataset_list :=
    filter (fun ds => 0 < size ds) (traffic_csv_converter fs <$> csv_files) in
  (concat dataset_list, Opened <$> csv_files).

(** Lines 186 to 192. *)
Definition process_class_dir (fs : FileSystem) (class_dir : string)
  : list event :=
  let '(ds, opened) := traffic_class_converter fs class_dir in
  Working_on class_dir :: opened
  ++ (if size ds >? 0 then [Exported class_dir ds] else []).

Definition class_dir_step (fs : FileSystem) (class_dir : string)
  : list event :=
  if isdir fs class_dir then
    if negb (contains "other" (lower class_dir)) then
      process_class_dir fs class_dir
    else []
  else [].

(** The loop of line 181. *)
Definition iterate_all_classes (fs : FileSystem) : list event :=
  class_dir ← sorted (glob fs); class_dir_step fs class_dir.

End Conversion.

End Converter.

(** * [dataset_generator.py] *)

Module Generator.
Import Py.

Definition RAW_DATA_DIR : string := "/content/FlowPic/classes_csvs/".
Definition DATASET_DIR : string := "/content/FlowPic/datasets/".
Definition TEST_SIZE : Q := 0.2.
Definition RANDOM_STATE : Z := 42.

Definition CLASS_NAMES : list string :=
  ["browsing"; "chat"; "file_transfer"; "video"; "voip"].

(** [enumerate(l)] *)
Definition enumerate {A : Type} (l : list A) : list (Z * A) :=
  imap (fun i x => (Z.of_nat i, x)) l.

(** [{name: i for i, name in enumerate(names)}]: the entries are inserted
    in order, a later one replacing an earlier one with the same key. *)
Definition class_to_label (names : list string) : gmap string Z :=
  foldl (fun m '(i, name) => <[name := i]> m) ∅ (enumerate names).

Definition CLASS_TO_LABEL : gmap string Z := class_to_label CLASS_NAMES.

Definition VPN_TYPES_TO_GENERATE : list string := ["vpn"; "tor"; "reg"].

(** The four arrays [train_test_split] returns. *)
Record split (X : Type) : Type := {
  x_train : list X;
  x_test : list X;
  y_train : list Z;
  y_test : list Z
}.

Arguments x_train {X} _.
Arguments x_test {X} _.
Arguments y_train {X} _.
Arguments y_test {X} _.

(** What the program takes from numpy and scikit-learn.  [X] is the type of
    one row (one FlowPic) of a feature array. *)
Class Sklearn (X : Type) : Type := {
  (** the number of cells of one row *)
  row_size : Z;
  (** the state of a pseudo-random generator *)
  rng : Type;
  (** [np.random.RandomState(seed)] *)
  RandomState : Z -> rng;
  (** the shuffled split drawn from a generator, for a test proportion and
      an optional array to stratify on; it raises when no such split
      exists *)
  shuffle_split :
    rng -> Q -> option (list Z) -> list X -> list Z -> result (split X)
}.

(** [.npy] files: what [glob.glob] matches and what [np.load] reads
    ([None] when it raises). *)
Record FileSystem (X : Type) : Type := {
  glob : string -> list string;
  np_load : string -> option (list X)
}.

Arguments glob {X} _ _.
Arguments np_load {X} _ _.

Section Generation.
Context {X : Type} `{SK : Sklearn X}.

(** [train_test_split(x, y, test_size=, random_state=, stratify=)]: with an
    integer [random_state] the split is drawn from a fresh generator seeded
    with it, with [None] from numpy's global generator, here [ambient]. *)
Definition train_test_split (ambient : rng) (x : list X) (y : list Z)
    (test_size : Q) (random_state : option Z) (stratify : option (list Z))
  : result (split X) :=
  let g := match random_state with
           | Some seed => RandomState seed
           | None => ambient
           end in
  shuffle_split g test_size stratify x y.

(** [a.size] *)
Definition size (a : list X) : Z := len a * row_size.

(** [np.full(n, v, dtype=np.int32)], for a value [v] that fits *)
Definition np_full (n : Z) (v : Z) : list Z := replicate (Z.to_nat n) v.

Definition import_array (fs : FileSystem X) (input_array_path : string)
  : option (list X) :=
  np_load fs input_array_path.

Definition class_vpn_file_pattern (class_name vpn_type : string) : string :=
  RAW_DATA_DIR +:+ class_name +:+ "/" +:+ vpn_type +:+ "/"
  +:+ class_name +:+ "_" +:+ vpn_type +:+ ".npy".

(** The body of the loop over the class names (lines 84 to 105), on the
    pair of [all_x_for_vpn_type] and [all_y_for_vpn_type]. *)
Definition class_step (labels : gmap string Z) (fs : FileSystem X)
    (vpn_type : string) (acc : list (list X) * list (list Z))
    (class_name : string) : result (list (list X) * list (list Z)) :=
  match glob fs (class_vpn_file_pattern class_name vpn_type) with
  | [] => Ok acc
  | npy_file_path :: _ =>
      match import_array fs npy_file_path with
      | Some data_array =>
          if size data_array >? 0 then
            label_for_this_class ← of_option KeyError (labels !! class_name);
            Ok (acc.1 ++ [data_array],
                acc.2 ++ [np_full (len data_array) label_for_this_class])
          else Ok acc
      | None => Ok acc
      end
  end.

Fixpoint collect_from (labels : gmap string Z) (fs : FileSystem X)
    (vpn_type : string) (names : list string)
    (acc : list (list X) * list (list Z))
  : result (list (list X) * list (list Z)) :=
  match names with
  | [] => Ok acc
  | class_name :: names' =>
      acc' ← class_step labels fs vpn_type acc class_name;
      collect_from labels fs vpn_type names' acc'
  end.

(** The loop over [CLASS_NAMES] for one VPN type. *)
Definition collect (fs : FileSystem X) (vpn_type : string)
  : result (list (list X) * list (list Z)) :=
  collect_from CLASS_TO_LABEL fs vpn_type CLASS_NAMES ([], []).

(** Lines 123 to 125. *)
Definition split_combined (ambient : rng) (combined_x : list X)
    (combined_y : list Z) : result (split X) :=
  train_test_split ambient combined_x combined_y TEST_SIZE
    (Some RANDOM_STATE) (Some combined_y).

(** The files written. *)
Inductive event : Type :=
| Saved_x (path : string) (a : list X)
| Saved_y (path : string) (a : list Z).

(** The body of the loop over the VPN types. *)
Definition generate_one (ambient : rng) (fs : FileSystem X)
    (vpn_type : string) : result (list event) :=
  '(all_x, all_y) ← collect fs vpn_type;
  match all_x with
  | [] => Ok []
  | _ =>
      let combined_x := concat all_x in
      let combined_y := concat all_y in
      s ← split_combined ambient combined_x combined_y;
      Ok [Saved_x (path_join DATASET_DIR (vpn_type +:+ "_x_test.npy"))
            (x_test s);
          Saved_y (path_join DATASET_DIR (vpn_type +:+ "_y_test.npy"))
            (y_test s)]
  end.

(** The files written, and the exception that ended the run if one did. *)
Fixpoint generate_from (ambient : rng) (fs : FileSystem X)
    (vpn_types : list string) : list event * option exn :=
  match vpn_types with
  | [] => ([], None)
  | vpn_type :: rest =>
      match generate_one ambient fs vpn_type with
      | Raise e => ([], Some e)
      | Ok evs =>
          let '(evs', r) := generate_from ambient fs rest in (evs ++ evs', r)
      end
  end.

Definition generate_combined_vpn_type_test_sets (ambient : rng)
    (fs : FileSystem X) : list event * option exn :=
  generate_from ambient fs VPN_TYPES_TO_GENERATE.

End Generation.

End Generator.

(** * Notions of the specification *)

Module Spec.
Import Py Converter.

(** The fields [[lo, hi)] of a row, and the fields from [lo] to the end. *)
Definition fields (row : list string) (lo hi : nat) : list string :=
  take (hi - lo) (drop lo row).

Definition fields_from (row : list string) (lo : nat) : list string :=
  drop lo row.

(** [conv] parses the strings [l] into the values [bs], one by one. *)
Definition parsed_as {B : Type} (conv : string -> option B)
    (l : list string) (bs : list B) : Prop :=
  Forall2 (fun s b => conv s = Some b) l bs.

Section Parser.
Context `{RT : Runtime}.

(** The Record Parser accepts [row] and returns [ts] and [sizes], having
    read [length] at field 7. *)
Definition accepted (row : list string) (length : Z) (ts : list Q)
    (sizes : list Z) : Prop :=
  9 <= len row /\ parse_row row = Ok (Some (length, ts, sizes)).

(** The integer declared at field 7, when that field is one. *)
Definition declared_length (row : list string) : option Z :=
  row !! 7%nat ≫= py_int.

(** Too few fields, or a declared length that the row cannot hold. *)
Definition structurally_rejected (row : list string) : Prop :=
  len row < 9 \/
  exists length, declared_length row = Some length /\
    (8 + length > len row \/ 9 + length > len row).

(** Enough fields and a declared length that fits (if it parses at all),
    but a field that is read does not parse as a number. *)
Definition numerically_rejected (row : list string) : Prop :=
  9 <= len row /\
  (declared_length row = None \/
   exists length, declared_length row = Some length /\
     8 + length <= len row /\ 9 + length <= len row /\
     ((exists s, s ∈ slice row 8 (Some (8 + length)) /\ np_float s = None) \/
      (exists s, s ∈ slice row (9 + length) None /\ np_int s = None))).

End Parser.

(** ** Segments *)

#[export] Instance Qle_decision (x y : Q) : Decision (x <= y)%Q.
Proof. unfold Qle. apply _. Defined.

#[export] Instance Qlt_decision (x y : Q) : Decision (x < y)%Q.
Proof. unfold Qlt. apply _. Defined.

(** Timestamps in chronological order. *)
Definition nondecreasing (ts : list Q) : Prop := Sorted Qle ts.

(** [x] lies in the window [[t * DELTA_T, t * DELTA_T + TPS]], both ends
    included. *)
Definition within (t : Z) (x : Q) : Prop :=
  (inject_Z (t * DELTA_T) <= x /\ x <= inject_Z (t * DELTA_T + TPS))%Q.

#[export] Instance within_decision t x : Decision (within t x).
Proof. unfold within. apply _. Defined.

(** The packets of a session, as pairs of a timestamp and a size, that
    fall in the window [t]. *)
Definition window_packets (t : Z) (ts : list Q) (sizes : list Z)
  : list (Q * Z) :=
  filter (fun p => within t p.1) (zip ts sizes).

(** The difference between the last and the first timestamp. *)
Definition span (seg : list (Q * Z)) : Q :=
  match head seg, last seg with
  | Some f, Some l => l.1 - f.1
  | _, _ => 0
  end.

(** More than 10 packets, over more than [MIN_TPS] seconds. *)
Definition valid_segment (seg : list (Q * Z)) : Prop :=
  (10 < length seg)%nat /\ (inject_Z MIN_TPS < span seg)%Q.

#[export] Instance valid_segment_decision seg : Decision (valid_segment seg).
Proof. unfold valid_segment. apply _. Defined.

(** Among the windows [windows], those whose packets make a valid segment,
    and the others. *)
Definition valid_windows (ts : list Q) (sizes : list Z) (windows : list Z)
  : list Z :=
  filter (fun t => valid_segment (window_packets t ts sizes)) windows.

Definition invalid_windows (ts : list Q) (sizes : list Z) (windows : list Z)
  : list Z :=
  filter (fun t => ~ valid_segment (window_packets t ts sizes)) windows.

(** A class directory that the conversion works on: a directory whose path,
    in lower case, does not contain ["other"]. *)
Definition eligible (fs : FileSystem) (class_dir : string) : Prop :=
  isdir fs class_dir = true /\ contains "other" (lower class_dir) = false.

#[export] Instance eligible_decision fs class_dir :
  Decision (eligible fs class_dir).
Proof. unfold eligible. apply _. Defined.


Section Segments.
Context `{RT : Runtime}.

(** The FlowPic of a segment, as [dataset] holds it. *)
Definition flowpic_of (seg : list (Q * Z)) : list flowpic :=
  [session_2d_histogram seg.*1 seg.*2].

(** The state after a window whose packets are [seg]. *)
Definition after_window (seg : list (Q * Z)) (st : conv_state)
  : conv_state :=
  if decide (valid_segment seg) then
    append_flowpic (session_2d_histogram seg.*1 seg.*2) st
  else skip st.

End Segments.

(** ** Labelled rows *)

Section Labels.
Import Generator.
Context {X : Type} `{SK : Sklearn X}.

(** The rows a class contributes for a tunnel type: those of the first file
    that matches, when it loads and is not empty. *)
Definition class_rows (fs : Generator.FileSystem X)
    (vpn_type class_name : string) : list X :=
  match Generator.glob fs (class_vpn_file_pattern class_name vpn_type) with
  | [] => []
  | npy_file_path :: _ =>
      match np_load fs npy_file_path with
      | Some data_array =>
          if Generator.size data_array >? 0 then data_array else []
      | None => []
      end
  end.

(** The rows of all the classes [names], in order, each paired with the
    index of its class. *)
Definition tagged_rows (fs : Generator.FileSystem X) (vpn_type : string)
    (names : list string) : list (X * Z) :=
  concat (imap (fun i class_name =>
                  (fun x => (x, Z.of_nat i))
                    <$> class_rows fs vpn_type class_name)
            names).

End Labels.

End Spec.

(** * A concrete runtime and concrete inputs

    Plain decimal literals, on which the conversions below agree with
    Python's [int()] and [float()]. *)

Module Demo.
Import Py Converter.

Definition digit (c : ascii) : option Z :=
  let n := nat_of_ascii c in
  if (48 <=? n)%nat && (n <=? 57)%nat then Some (Z.of_nat n - 48) else None.

Fixpoint digits (acc : Z) (s : string) : option Z :=
  match s with
  | EmptyString => Some acc
  | String c s' => d ← digit c; digits (10 * acc + d) s'
  end.

(** An optional minus sign and at least one digit. *)
Definition dec_int (s : string) : option Z :=
  match s with
  | EmptyString => None
  | String "-" EmptyString => None
  | String "-" s' => Z.opp <$> digits 0 s'
  | _ => digits 0 s
  end.

(** The part of [s] before the first ['.'], and the part after it if any. *)
Fixpoint split_dot (s : string) : string * option string :=
  match s with
  | EmptyString => (EmptyString, None)
  | String "." s' => (EmptyString, Some s')
  | String c s' => let '(a, b) := split_dot s' in (String c a, b)
  end.

(** Digits with at most one dot among them, and at least one digit. *)
Definition dec_float (s : string) : option Q :=
  match split_dot s with
  | (EmptyString, None) | (EmptyString, Some EmptyString) => None
  | (a, None) => inject_Z <$> digits 0 a
  | (a, Some b) =>
      n ← digits 0 (a +:+ b);
      Some (Qmake n (Z.to_pos (10 ^ Z.of_nat (String.length b))))
  end.

(** The histogram routine is kept symbolic: a histogram is the pair of the
    arrays it is built from. *)
#[export] Instance demo_runtime : Runtime := {|
  py_int := dec_int;
  np_float := dec_float;
  np_int := dec_int;
  flowpic := list Q * list Z;
  flowpic_size := 1;
  session_2d_histogram := fun ts sizes => (ts, sizes)
|}.

Definition meta : list string := ["a"; "b"; "c"; "d"; "e"; "f"; "g"].

Definition ts12 : list string :=
  ["0"; "5"; "10"; "15"; "20"; "25"; "30"; "35"; "40"; "45"; "50"; "55"].

Definition sizes12 : list string :=
  ["100"; "101"; "102"; "103"; "104"; "105"; "106"; "107"; "108"; "109";
   "110"; "111"].

(** The row of the specification's scenario: [8 + 12 + 12 = 32] fields. *)
Definition row32 : list string := meta ++ ["12"] ++ ts12 ++ sizes12.

(** The same session with one field between the two arrays: 33 fields. *)
Definition row33 : list string := meta ++ ["12"] ++ ts12 ++ [""] ++ sizes12.

(** One timestamp, a separating field that happens to be numeric, and one
    size. *)
Definition row11 : list string := meta ++ ["1"; "0.5"; "7"; "100"].

(** The arrays read from [row33], and the sizes read from [row32]. *)
Definition ts55 : list Q := [0; 5; 10; 15; 20; 25; 30; 35; 40; 45; 50; 55]%Q.

Definition sz12 : list Z :=
  [100; 101; 102; 103; 104; 105; 106; 107; 108; 109; 110; 111].

Definition sz11 : list Z :=
  [101; 102; 103; 104; 105; 106; 107; 108; 109; 110; 111].

(** Eleven packets over exactly 50 seconds, ending at 150. *)
Definition ts150 : list Q :=
  [100; 105; 110; 115; 120; 125; 130; 135; 140; 145; 150]%Q.


(** Twelve packets in the first minute, one in the second, one in the
    third. *)
Definition ts130 : list Q := ts55 ++ [70; 130]%Q.

Definition sz14 : list Z := sz12 ++ [112; 113].

Definition short_row : list string := ["a"; "b"; "c"].

Definition overlong_row : list string := meta ++ ["5"; "1"; "2"].

Definition bad_row : list string := meta ++ ["1"; "x"; ""; "100"].

(** A file system for the conversion: two class directories with data, one
    of them under [Other], and one without files. *)
Definition demo_fs : Converter.FileSystem := {|
  Converter.glob :=
    ["classes/chat/vpn/"; "classes/Other/vpn/"; "classes/voip/tor/"];
  isdir := fun _ => true;
  listdir := fun d =>
    if String.eqb d "classes/chat/vpn/" then ["a.csv"; "notes.txt"]
    else if String.eqb d "classes/Other/vpn/" then ["o.csv"]
    else [];
  read_csv := fun f =>
    if String.eqb f "classes/chat/vpn/a.csv" then Some [row33; short_row]
    else if String.eqb f "classes/Other/vpn/o.csv" then Some [row33]
    else None
|}.

(** For the generator, a row is a number, and the stand-in for the shuffled
    split rotates the rows by the state of the generator and cuts off the
    test proportion. *)
Definition rotate_by {A : Type} (g : Z) (l : list A) : list A :=
  rotate (Z.to_nat g) l.

Definition demo_split (g : Z) (test_size : Q) (stratify : option (list Z))
    (x : list Z) (y : list Z) : result (Generator.split Z) :=
  let k := Z.to_nat (Qceiling (test_size * inject_Z (len x))) in
  Ok {| Generator.x_train := drop k (rotate_by g x);
        Generator.x_test := take k (rotate_by g x);
        Generator.y_train := drop k (rotate_by g y);
        Generator.y_test := take k (rotate_by g y) |}.

#[export] Instance demo_sklearn : Generator.Sklearn Z := {|
  Generator.row_size := 1;
  Generator.rng := Z;
  Generator.RandomState := fun seed => seed;
  Generator.shuffle_split := demo_split
|}.



End Demo.

(** * [export_class_dataset]: the name of the exported file *)

Module Exporter.
Import Py.

(** A character of the class [[\w']], among the ASCII characters: a letter,
    a digit, an underscore or an apostrophe. *)
Definition is_word (c : ascii) : bool :=
  let n := nat_of_ascii c in
  ((48 <=? n)%nat && (n <=? 57)%nat)
  || ((65 <=? n)%nat && (n <=? 90)%nat)
  || ((97 <=? n)%nat && (n <=? 122)%nat)
  || (n =? 95)%nat || (n =? 39)%nat.

(** [re.findall(r"[\w']+", s)]: the maximal runs of such characters, from
    left to right.  When [s] goes on with such a character, the first run
    of the rest starts there, and [c] extends it. *)
Fixpoint findall_words (s : string) : list string :=
  match s with
  | EmptyString => []
  | String c s' =>
      if is_word c then
        match s' with
        | EmptyString => [String c EmptyString]
        | String c' _ =>
            if is_word c' then
              match findall_words s' with
              | w :: ws => String c w :: ws
              | [] => [String c EmptyString]
              end
            else String c EmptyString :: findall_words s'
        end
      else findall_words s'
  end.

(** [sep.join(l)] *)
Fixpoint str_join (sep : string) (l : list string) : string :=
  match l with
  | [] => EmptyString
  | [w] => w
  | w :: l' => w +:+ sep +:+ str_join sep l'
  end.

(** Line 50. *)
Definition output_filename (class_dir : string) : string :=
  str_join "_" (slice (findall_words class_dir) (-2) None) +:+ ".npy".

(** Line 51: the path [np.save] writes to. *)
Definition output_path (class_dir : string) : string :=
  path_join class_dir (output_filename class_dir).

(** Every character of [s] is of the class [[\w']]. *)
Fixpoint word (s : string) : bool :=
  match s with
  | EmptyString => true
  | String c s' => is_word c && word s'
  end.

(** [s] is empty or ends with a character outside the class. *)
Fixpoint ends_outside_word (s : string) : bool :=
  match s with
  | EmptyString => true
  | String c EmptyString => negb (is_word c)
  | String _ s' => ends_outside_word s'
  end.

End Exporter.

(** * What a row, a session and a file contribute *)

Module Rows.
Import Py Converter Spec.

Section Contributions.
Context `{RT : Runtime}.

(** The FlowPics of a parsed session: those of the valid windows, when the
    session declares more than 10 packets and has as many sizes as
    timestamps. *)
Definition session_flowpics (length : Z) (ts : list Q) (sizes : list Z)
  : list (list flowpic) :=
  match last ts with
  | Some last_ts =>
      if decide (10 < length /\ Datatypes.length ts = Datatypes.length sizes)
      then (fun t => flowpic_of (window_packets t ts sizes))
             <$> valid_windows ts sizes (window_indices last_ts)
      else []
  | None => []
  end.

(** The skips a parsed session is counted for. *)
Definition session_skips (length : Z) (ts : list Q) (sizes : list Z) : Z :=
  if decide (10 < length) then
    match last ts with
    | Some last_ts =>
        if decide (Datatypes.length ts = Datatypes.length sizes) then
          len (invalid_windows ts sizes (window_indices last_ts))
        else if decide (window_indices last_ts = []) then 0 else 1
    | None => 1
    end
  else 1.

(** What the parser makes of a row: [Ok None] for a row that is passed
    over. *)
Definition parse_outcome (row : list string)
  : result (option (Z * list Q * list Z)) :=
  if len row <? 9 then Ok None else parse_row row.

Definition row_flowpics (row : list string) : list (list flowpic) :=
  match parse_outcome row with
  | Ok (Some (length, ts, sizes)) => session_flowpics length ts sizes
  | _ => []
  end.

Definition row_skips (row : list string) : Z :=
  match parse_outcome row with
  | Ok (Some (length, ts, sizes)) => session_skips length ts sizes
  | Ok None => 0
  | Raise _ => 1
  end.

(** The state [st] after [flowpics] were appended and [skips] counted. *)
Definition advance (st : conv_state) (flowpics : list (list flowpic))
    (skips : Z) : conv_state :=
  {| dataset := dataset st ++ flowpics;
     counter := counter st + len flowpics;
     skipped_segments := skipped_segments st + skips |}.

(** The sum of a list of integers. *)
Definition sum_list (l : list Z) : Z := foldr Z.add 0 l.


End Contributions.

End Rows.

(** * More concrete inputs *)

Module Cases.
Import Py Converter Demo.

(** A row that declares a negative number of packets. *)
Definition negative_row : list string := meta ++ ["-1"; "7"; "8"].

(** Arrays for four classes under ["vpn"], one of which does not load, for
    one class under ["tor"] and for one under ["reg"]. *)
Definition several_classes : Generator.FileSystem Z := {|
  Generator.glob := fun pattern =>
    if bool_decide
         (pattern ∈ [Generator.class_vpn_file_pattern "browsing" "vpn";
                     Generator.class_vpn_file_pattern "file_transfer" "vpn";
                     Generator.class_vpn_file_pattern "video" "vpn";
                     Generator.class_vpn_file_pattern "voip" "vpn";
                     Generator.class_vpn_file_pattern "chat" "tor";
                     Generator.class_vpn_file_pattern "voip" "reg"])
    then [pattern] else [];
  Generator.np_load := fun f =>
    if String.eqb f (Generator.class_vpn_file_pattern "browsing" "vpn")
    then Some [10; 11]
    else if String.eqb f
              (Generator.class_vpn_file_pattern "file_transfer" "vpn")
    then Some [20]
    else if String.eqb f (Generator.class_vpn_file_pattern "voip" "vpn")
    then Some [30; 31; 32]
    else if String.eqb f (Generator.class_vpn_file_pattern "chat" "tor")
    then Some [40]
    else if String.eqb f (Generator.class_vpn_file_pattern "voip" "reg")
    then Some [50; 51]
    else None
|}.

(** The session of [row33] with other sizes. *)
Definition row33b : list string :=
  meta ++ ["12"] ++ ts12 ++ [""] ++ rev sizes12.

(** One class directory with two CSV files and a file of another kind,
    listed in the order [listing]. *)
Definition two_files (listing : list string) : Converter.FileSystem := {|
  Converter.glob := ["classes/chat/vpn/"];
  isdir := fun _ => true;
  listdir := fun _ => listing;
  read_csv := fun f =>
    if String.eqb f "classes/chat/vpn/a.csv" then Some [row33; short_row]
    else if String.eqb f "classes/chat/vpn/b.csv" then Some [row33b; row33]
    else None
|}.



End Cases.

(** * Facts about the primitives *)

Section PyFacts.
Import Py.

Lemma slice_within {A : Type} (l : list A) (lo hi : Z) :
  0 <= lo -> lo <= hi -> hi <= len l ->
  slice l lo (Some hi) = take (Z.to_nat (hi - lo)) (drop (Z.to_nat lo) l).
Proof.
  intros Hlo Hhi Hlen. unfold slice, clamp.
  destruct (Z.ltb_spec lo 0), (Z.ltb_spec hi 0); try lia.
  rewrite !Z.min_l by lia. reflexivity.
Qed.

Lemma slice_from {A : Type} (l : list A) (lo : Z) :
  0 <= lo -> lo <= len l -> slice l lo None = drop (Z.to_nat lo) l.
Proof.
  intros Hlo Hlen. unfold slice, clamp.
  destruct (Z.ltb_spec lo 0); try lia.
  rewrite Z.min_l by lia. apply take_ge.
  rewrite length_drop. unfold len in *. lia.
Qed.

Lemma np_array_Ok {B : Type} (conv : string -> option B) l bs :
  np_array conv l = Ok bs <-> Forall2 (fun s b => conv s = Some b) l bs.
Proof.
  revert bs. induction l as [|s l IH]; intros bs; simpl.
  - split.
    + intros [= <-]. constructor.
    + intros H. inversion H. reflexivity.
  - destruct (conv s) as [b|] eqn:Hs.
    + destruct (np_array conv l) as [bs'|e] eqn:Hl; simpl.
      * split.
        -- intros [= <-]. constructor; [done | by apply IH].
        -- intros H. inversion H as [|? b' ? bs'' Hb Hrest]; subst.
           apply IH in Hrest. congruence.
      * split; [done |].
        intros H. inversion H as [|? b' ? bs'' Hb Hrest]; subst.
        apply IH in Hrest. done.
    + split; [done |]. intros H. inversion H; congruence.
Qed.

Lemma np_array_Raise {B : Type} (conv : string -> option B) l e :
  np_array conv l = Raise e <->
  e = ValueError /\ exists s, s ∈ l /\ conv s = None.
Proof.
  revert e. induction l as [|s l IH]; intros e; simpl.
  - split; [done |]. intros [_ (s & Hs & _)]. by apply elem_of_nil in Hs.
  - destruct (conv s) as [b|] eqn:Hs.
    + destruct (np_array conv l) as [bs'|e'] eqn:Hl; simpl.
      * split; [done |]. intros [He (s' & Hin & Hs')].
        apply elem_of_cons in Hin as [-> | Hin]; [congruence |].
        assert (@Ok (list B) bs' = Raise e) as Habs; [| done].
        apply IH. eauto.
      * destruct (proj1 (IH e') eq_refl) as [-> (s' & Hin & Hs')].
        split.
        -- intros [= <-]. split; [done |].
           exists s'. split; [by apply elem_of_cons; right | done].
        -- by intros [-> _].
    + split.
      * intros [= <-]. split; [done |].
        exists s. split; [by apply elem_of_cons; left | done].
      * by intros [-> _].
Qed.

End PyFacts.

(** * The Record Parser *)

Section ParserFacts.
Import Py Converter Spec.
Context `{RT : Runtime}.

Lemma getitem_field7 (row : list string) :
  9 <= len row -> exists field, row !! 7%nat = Some field /\ getitem row 7 = Ok field.
Proof.
  intros Hlen. unfold len in Hlen.
  destruct (row !! 7%nat) as [field|] eqn:Hf.
  - exists field. split; [done |]. unfold getitem.
    change (7 <? 0) with false. cbv iota.
    change (Z.to_nat 7) with 7%nat. by rewrite Hf.
  - apply lookup_ge_None in Hf. lia.
Qed.

(** [parse_row], case by case. *)
Lemma parse_row_unfold (row : list string) :
  9 <= len row ->
  parse_row row =
  match declared_length row with
  | None => Raise ValueError
  | Some length =>
      if (8 + length >? len row) || (9 + length >? len row) then Ok None
      else
        ts ← np_array np_float (slice row 8 (Some (8 + length)));
        sizes ← np_array np_int (slice row (9 + length) None);
        Ok (Some (length, ts, sizes))
  end.
Proof.
  intros Hlen. destruct (getitem_field7 row Hlen) as (field & Hf & Hg).
  unfold parse_row, declared_length. rewrite Hg, Hf. simpl.
  unfold mbind, result_bind. simpl.
  destruct (py_int field); reflexivity.
Qed.

Lemma accepted_inv row length ts sizes :
  accepted row length ts sizes ->
  declared_length row = Some length /\
  8 + length <= len row /\ 9 + length <= len row /\
  np_array np_float (slice row 8 (Some (8 + length))) = Ok ts /\
  np_array np_int (slice row (9 + length) None) = Ok sizes.
Proof.
  intros [Hlen Hp]. rewrite parse_row_unfold in Hp by done.
  destruct (declared_length row) as [n|]; [| done].
  destruct (Z.gtb_spec (8 + n) (len row)); [done |].
  destruct (Z.gtb_spec (9 + n) (len row)); [done |]. simpl in Hp.
  destruct (np_array np_float _) as [ts'|] eqn:Hts; [| done].
  destruct (np_array np_int _) as [sizes'|] eqn:Hsz; [| done].
  simpl in Hp. injection Hp as <- <- <-.
  rewrite Hts, Hsz. repeat split; (done || lia).
Qed.

Lemma accepted_intro row length ts sizes :
  9 <= len row ->
  declared_length row = Some length ->
  9 + length <= len row ->
  np_array np_float (slice row 8 (Some (8 + length))) = Ok ts ->
  np_array np_int (slice row (9 + length) None) = Ok sizes ->
  accepted row length ts sizes.
Proof.
  intros Hlen Hd Hb Hts Hsz. split; [done |].
  rewrite parse_row_unfold, Hd by done.
  destruct (Z.gtb_spec (8 + length) (len row)); [lia |].
  destruct (Z.gtb_spec (9 + length) (len row)); [lia |]. simpl.
  by rewrite Hts, Hsz.
Qed.

Lemma np_array_total {B : Type} (conv : string -> option B) l :
  (forall s, s ∈ l -> is_Some (conv s)) -> exists bs, np_array conv l = Ok bs.
Proof.
  intros Hall. destruct (np_array conv l) as [bs|e] eqn:H; [by exists bs |].
  apply np_array_Raise in H as [_ (s & Hin & Hs)].
  destruct (Hall s Hin) as [b Hb]. congruence.
Qed.

Lemma np_array_length {B : Type} (conv : string -> option B) l bs :
  np_array conv l = Ok bs -> length bs = length l.
Proof. intros H%np_array_Ok. symmetry. by eapply Forall2_length. Qed.

(** C1, as the code has it: the timestamps are the floats parsed from the
    fields [[8, 8+length)], and the sizes are the integers parsed from the
    fields [[9+length, end)]: the field at index [8+length] is not read. *)
Theorem parsed_arrays_are_row_slices row length ts sizes :
  accepted row length ts sizes ->
  0 <= length ->
  declared_length row = Some length /\
  parsed_as np_float (fields row 8 (8 + Z.to_nat length)) ts /\
  parsed_as np_int (fields_from row (9 + Z.to_nat length)) sizes.
Proof.
  intros Hacc Hpos.
  destruct (accepted_inv _ _ _ _ Hacc) as (Hd & Hb8 & Hb9 & Hts & Hsz).
  split; [done |]. unfold parsed_as, fields, fields_from.
  rewrite slice_within in Hts by lia.
  rewrite slice_from in Hsz by lia.
  apply np_array_Ok in Hts, Hsz.
  replace (8 + Z.to_nat length - 8)%nat with (Z.to_nat (8 + length - 8)) by lia.
  replace (9 + Z.to_nat length)%nat with (Z.to_nat (9 + length)) by lia.
  done.
Qed.

(** C2, as the code has it: an accepted row with a non-negative declared
    length yields [length] timestamps and [len(row) - 9 - length] sizes, so
    the two arrays have equal length exactly when the row has
    [9 + 2 * length] fields; a row of 33 fields that declares 12 and whose
    fields read are numeric is accepted and yields two arrays of 12. *)
Theorem parsed_array_lengths row :
  (forall length ts sizes,
     accepted row length ts sizes -> 0 <= length ->
     len ts = length /\ len sizes = len row - 9 - length /\
     (len ts = len sizes <-> len row = 9 + 2 * length)) /\
  (len row = 33 ->
   declared_length row = Some 12 ->
   Forall (fun s => is_Some (np_float s)) (fields row 8 20) ->
   Forall (fun s => is_Some (np_int s)) (fields_from row 21) ->
   exists ts sizes,
     accepted row 12 ts sizes /\ len ts = 12 /\ len sizes = 12).
Proof.
  assert (forall length ts sizes,
     accepted row length ts sizes -> 0 <= length ->
     len ts = length /\ len sizes = len row - 9 - length) as Hlens.
  { intros length ts sizes Hacc Hpos.
    destruct (accepted_inv _ _ _ _ Hacc) as (Hd & Hb8 & Hb9 & Hts & Hsz).
    rewrite slice_within in Hts by lia.
    rewrite slice_from in Hsz by lia.
    apply np_array_length in Hts, Hsz.
    rewrite length_take, length_drop in Hts. rewrite length_drop in Hsz.
    unfold len in *. lia. }
  split.
  - intros length ts sizes Hacc Hpos.
    destruct (Hlens _ _ _ Hacc Hpos) as [Hts Hsz]. repeat split; lia.
  - intros Hlen Hd Hfl Hint.
    destruct (np_array_total np_float (slice row 8 (Some (8 + 12))))
      as [ts Hts].
    { rewrite slice_within by lia. by apply Forall_forall. }
    destruct (np_array_total np_int (slice row (9 + 12) None)) as [sizes Hsz].
    { rewrite slice_from by lia. by apply Forall_forall. }
    exists ts, sizes.
    assert (accepted row 12 ts sizes) as Hacc
      by (apply accepted_intro; (done || lia)).
    destruct (Hlens _ _ _ Hacc) as [? ?]; [lia |].
    repeat split; (apply Hacc || lia).
Qed.

End ParserFacts.

(** * The Record Parser on concrete rows *)

Section ParserExamples.
Import Py Converter Spec Demo.

(** C1 fails as stated: [row11] declares one timestamp and is accepted with
    the sizes [[100]], read from field 10 on; the fields from index
    [8 + 1] on are ["7"] and ["100"]. *)
Lemma sizes_start_after_separator :
  accepted row11 1 [0.5%Q] [100] /\
  fields_from row11 (8 + 1) = ["7"; "100"] /\
  ~ parsed_as np_int (fields_from row11 (8 + 1)) [100].
Proof.
  split; [split; [by vm_compute | reflexivity] |].
  split; [reflexivity |].
  intros H%Forall2_length. by vm_compute in H.
Qed.

(** The row of 33 fields, through the theorem. *)
Lemma parsed_arrays_are_row_slices_witness :
  declared_length row33 = Some 12 /\
  parsed_as np_float (fields row33 8 (8 + Z.to_nat 12)) ts55 /\
  parsed_as np_int (fields_from row33 (9 + Z.to_nat 12)) sz12.
Proof.
  apply (parsed_arrays_are_row_slices row33 12 ts55 sz12).
  - split; [by vm_compute | reflexivity].
  - lia.
Defined.

(** C2 fails as stated: the row of 32 fields that declares 12 is accepted
    with 12 timestamps and 11 sizes, and the mismatch makes the
    segmentation of the row raise: the row yields no FlowPic and is counted
    as skipped. *)
Lemma row32_arrays_differ_in_length :
  len row32 = 32 /\
  accepted row32 12 ts55 sz11 /\
  len ts55 = 12 /\ len sz11 = 11 /\
  process_row row32 init_state = (Ok tt, skip init_state).
Proof.
  split; [reflexivity |].
  split; [split; [by vm_compute | reflexivity] |].
  repeat split; reflexivity.
Qed.

(** The row of 33 fields, through both halves of the theorem. *)
Lemma parsed_array_lengths_witness :
  (len ts55 = 12 /\ len sz12 = len row33 - 9 - 12 /\
   (len ts55 = len sz12 <-> len row33 = 9 + 2 * 12)) /\
  exists ts sizes, accepted row33 12 ts sizes /\ len ts = 12 /\ len sizes = 12.
Proof.
  split.
  - apply (proj1 (parsed_array_lengths row33) 12 ts55 sz12).
    + split; [by vm_compute | reflexivity].
    + lia.
  - apply (proj2 (parsed_array_lengths row33)).
    + reflexivity.
    + reflexivity.
    + apply (bool_decide_unpack _). by vm_compute.
    + apply (bool_decide_unpack _). by vm_compute.
Defined.

End ParserExamples.

(** * Rows of a file *)

Section RowFacts.
Import Py Converter Spec.
Context `{RT : Runtime}.

Lemma process_row_short row st :
  len row < 9 -> process_row row st = (Ok tt, st).
Proof.
  intros H. unfold process_row.
  destruct (Z.ltb_spec (len row) 9); [reflexivity | lia].
Qed.

Lemma process_row_unfold row st :
  9 <= len row ->
  process_row row st =
  match parse_row row with
  | Raise _ => (Ok tt, skip st)
  | Ok None => (Ok tt, st)
  | Ok (Some (length, ts, sizes)) =>
      try_except (segment_session length ts sizes) (fun _ => modify skip) st
  end.
Proof.
  intros H. unfold process_row.
  destruct (Z.ltb_spec (len row) 9); [lia |].
  unfold try_except, mbind, M_bind, bind, lift.
  destruct (parse_row row) as [[[[length ts] sizes]|]|e]; reflexivity.
Qed.

Lemma try_except_skip_ok (m : M unit) st :
  (try_except m (fun _ => modify skip) st).1 = Ok tt.
Proof. unfold try_except. by destruct (m st) as [[[]|e] st']. Qed.

(** A row never makes the loop over the rows stop. *)
Lemma process_row_ok row st : (process_row row st).1 = Ok tt.
Proof.
  destruct (Z.lt_ge_cases (len row) 9) as [H|H].
  - by rewrite process_row_short.
  - rewrite process_row_unfold by done.
    destruct (parse_row row) as [[[[length ts] sizes]|]|e]; try reflexivity.
    apply try_except_skip_ok.
Qed.

Lemma for_each_cons {A : Type} (x : A) l (body : A -> M unit) st :
  (body x st).1 = Ok tt ->
  for_each (x :: l) body st = for_each l body (body x st).2.
Proof.
  intros H. simpl. unfold bind.
  destruct (body x st) as [[[]|e] st']; simpl in *; [reflexivity | done].
Qed.

Lemma for_each_app {A : Type} (l1 l2 : list A) (body : A -> M unit) st :
  (forall x st', (body x st').1 = Ok tt) ->
  for_each (l1 ++ l2) body st = for_each l2 body (for_each l1 body st).2.
Proof.
  intros Hok. revert st. induction l1 as [|x l1 IH]; intros st.
  - reflexivity.
  - rewrite <- app_comm_cons, !for_each_cons by apply Hok. apply IH.
Qed.

Lemma structurally_rejected_parse row :
  9 <= len row -> structurally_rejected row -> parse_row row = Ok None.
Proof.
  intros Hlen [Hshort | (length & Hd & Hb)]; [lia |].
  rewrite parse_row_unfold, Hd by done.
  destruct (Z.gtb_spec (8 + length) (len row)); [done |].
  destruct (Z.gtb_spec (9 + length) (len row)); [done | lia].
Qed.

Lemma numerically_rejected_parse row :
  numerically_rejected row -> parse_row row = Raise ValueError.
Proof.
  intros [Hlen [Hd | (length & Hd & Hb8 & Hb9 & Hbad)]];
    rewrite parse_row_unfold, Hd by done; [done |].
  destruct (Z.gtb_spec (8 + length) (len row)); [lia |].
  destruct (Z.gtb_spec (9 + length) (len row)); [lia |]. simpl.
  destruct Hbad as [Hbad | Hbad].
  - assert (np_array np_float (slice row 8 (Some (8 + length)))
            = Raise ValueError) as -> by (by apply np_array_Raise).
    reflexivity.
  - assert (np_array np_int (slice row (9 + length) None)
            = Raise ValueError) as Hs by (by apply np_array_Raise).
    destruct (np_array np_float _) as [ts|e] eqn:Hts; simpl.
    + by rewrite Hs.
    + by apply np_array_Raise in Hts as [-> _].
Qed.

Lemma accepted_iff row :
  (exists length ts sizes, accepted row length ts sizes) <->
  ~ structurally_rejected row /\ ~ numerically_rejected row.
Proof.
  split.
  - intros (length & ts & sizes & Hacc).
    destruct Hacc as [Hlen Hp]. split.
    + intros Hs. rewrite structurally_rejected_parse in Hp; done.
    + intros Hn. rewrite numerically_rejected_parse in Hp; done.
  - intros [Hns Hnn].
    destruct (Z.lt_ge_cases (len row) 9) as [Hlen|Hlen];
      [by destruct Hns; left |].
    destruct (declared_length row) as [length|] eqn:Hd;
      [| by destruct Hnn; split; [| left]].
    destruct (Z.le_gt_cases (9 + length) (len row)) as [Hb|Hb];
      [| destruct Hns; right; exists length; split; [done | right; lia]].
    destruct (np_array np_float (slice row 8 (Some (8 + length))))
      as [ts|e] eqn:Hts.
    + destruct (np_array np_int (slice row (9 + length) None))
        as [sizes|e] eqn:Hsz.
      * exists length, ts, sizes. by apply accepted_intro.
      * apply np_array_Raise in Hsz as [_ Hbad]. destruct Hnn.
        split; [done |]. right. exists length.
        repeat split; [done | lia | lia | by right].
    + apply np_array_Raise in Hts as [_ Hbad]. destruct Hnn.
      split; [done |]. right. exists length.
      repeat split; [done | lia | lia | by left].
Qed.

(** C6, as the code has it: a row is rejected exactly when it has fewer
    than 9 fields, or its declared length does not fit, or a field that is
    read is not numeric; a rejected row is skipped and the next row is
    processed.  Only the numeric failure is counted: the two structural
    rejections leave the skip counter as it is.  Every other row is parsed
    and passed on to the segmenter. *)
Theorem row_rejection row st :
  (structurally_rejected row -> process_row row st = (Ok tt, st)) /\
  (numerically_rejected row -> process_row row st = (Ok tt, skip st)) /\
  ((exists length ts sizes, accepted row length ts sizes) <->
   ~ structurally_rejected row /\ ~ numerically_rejected row) /\
  (forall length ts sizes,
     accepted row length ts sizes ->
     process_row row st =
     try_except (segment_session length ts sizes) (fun _ => modify skip) st) /\
  (forall before after,
     for_each (before ++ row :: after) process_row st =
     for_each after process_row
       (process_row row (for_each before process_row st).2).2).
Proof.
  split; [| split; [| split; [| split]]].
  - intros Hs. destruct (Z.lt_ge_cases (len row) 9) as [Hlen|Hlen].
    + by apply process_row_short.
    + by rewrite process_row_unfold, structurally_rejected_parse.
  - intros Hn. rewrite process_row_unfold by apply Hn.
    by rewrite numerically_rejected_parse.
  - apply accepted_iff.
  - intros length ts sizes [Hlen Hp].
    by rewrite process_row_unfold, Hp.
  - intros before after.
    rewrite for_each_app by apply process_row_ok.
    by rewrite for_each_cons by apply process_row_ok.
Qed.

End RowFacts.

Section RowExamples.
Import Py Converter Spec Demo.

(** C6 fails as stated: a row of three fields and a row whose declared
    length exceeds it are rejected, and neither is counted. *)
Lemma structural_rejections_are_not_counted :
  structurally_rejected short_row /\
  structurally_rejected overlong_row /\
  skipped_segments (process_row short_row init_state).2 = 0 /\
  skipped_segments (process_row overlong_row init_state).2 = 0.
Proof.
  split; [left; by vm_compute |].
  split; [right; exists 5; split; [reflexivity | left; by vm_compute] |].
  split; reflexivity.
Qed.

(** A short row, a row with a field that is not numeric and a well-formed
    row, through the theorem. *)
Lemma row_rejection_witness :
  process_row short_row init_state = (Ok tt, init_state) /\
  process_row bad_row init_state = (Ok tt, skip init_state) /\
  process_row row33 init_state =
    try_except (segment_session 12 ts55 sz12) (fun _ => modify skip)
      init_state.
Proof.
  split; [| split].
  - apply (proj1 (row_rejection short_row init_state)).
    left. by vm_compute.
  - apply (proj1 (proj2 (row_rejection bad_row init_state))).
    split; [by vm_compute |]. right. exists 1.
    split; [reflexivity |]. split; [by vm_compute |]. split; [by vm_compute |].
    left. exists "x". split; [| reflexivity].
    vm_compute. apply elem_of_cons. by left.
  - apply (proj1 (proj2 (proj2 (proj2 (row_rejection row33 init_state))))).
    split; [by vm_compute | reflexivity].
Defined.

End RowExamples.

(** * The Session Segmenter *)

Section SegmenterFacts.
Import Py Converter Spec.
Context `{RT : Runtime}.

Lemma getitem_last {A : Type} (l : list A) x :
  last l = Some x -> getitem l (-1) = Ok x.
Proof.
  intros H. rewrite last_lookup in H.
  assert (0 < length l)%nat as Hpos.
  { destruct l; [done | simpl; lia]. }
  unfold getitem. change (-1 <? 0) with true. cbv iota.
  destruct (Z.ltb_spec (-1 + len l) 0) as [Hneg|_]; [unfold len in Hneg; lia |].
  replace (Z.to_nat (-1 + len l)) with (Init.Nat.pred (length l))
    by (unfold len; lia).
  by rewrite H.
Qed.

Lemma getitem_head {A : Type} (l : list A) x :
  head l = Some x -> getitem l 0 = Ok x.
Proof.
  intros H. rewrite head_lookup in H. unfold getitem.
  change (0 <? 0) with false. cbv iota.
  change (Z.to_nat 0) with 0%nat. by rewrite H.
Qed.

Lemma in_window_within t x : in_window t x = true <-> within t x.
Proof.
  unfold in_window, within.
  rewrite andb_true_iff, !Qle_bool_iff. reflexivity.
Qed.

Lemma Qgtb_lt x y : Qgtb x y = true <-> (y < x)%Q.
Proof.
  unfold Qgtb. rewrite negb_true_iff.
  destruct (Qle_bool x y) eqn:H.
  - apply Qle_bool_iff in H. split; [done |]. intros H'. lra.
  - split; [| done]. intros _. apply Qnot_le_lt. intros H'.
    apply Qle_bool_iff in H'. congruence.
Qed.

(** Masking the two arrays of a session by a window selects the packets of
    the window. *)
Lemma select_window t ts sizes :
  length ts = length sizes ->
  select ts (window_mask ts t) = (window_packets t ts sizes).*1 /\
  select sizes (window_mask ts t) = (window_packets t ts sizes).*2.
Proof.
  revert sizes. induction ts as [|x ts IH]; intros [|s sizes] Hlen;
    simpl in Hlen; try done.
  injection Hlen as Hlen. destruct (IH sizes Hlen) as [IH1 IH2].
  unfold window_packets in *. simpl. rewrite filter_cons. simpl.
  destruct (in_window t x) eqn:Hin.
  - apply in_window_within in Hin. rewrite decide_True by done.
    simpl. unfold window_mask in *. by rewrite IH1, IH2.
  - rewrite decide_False; [done |].
    intros Hw%in_window_within. congruence.
Qed.

(** The validity test of line 104 decides [valid_segment]. *)
Lemma is_valid_spec (seg : list (Q * Z)) :
  is_valid seg.*1 = Ok (bool_decide (valid_segment seg)).
Proof.
  unfold is_valid.
  assert (len seg.*1 = len seg) as -> by (unfold len; by rewrite length_fmap).
  destruct (Z.gtb_spec (len seg) 10) as [Hlen|Hlen]; unfold len in Hlen.
  - assert (exists f, head seg = Some f) as [f Hf].
    { destruct seg; simpl in *; [lia | by eexists]. }
    assert (exists l, last seg = Some l) as [l Hl].
    { destruct (last seg) eqn:Hl; [by eexists |].
      rewrite last_lookup in Hl. apply lookup_ge_None in Hl. lia. }
    rewrite (getitem_last seg.*1 l.1) by (by rewrite fmap_last, Hl).
    rewrite (getitem_head seg.*1 f.1) by (by rewrite head_lookup, list_lookup_fmap, <- head_lookup, Hf).
    simpl. f_equal. symmetry.
    destruct (Qgtb (l.1 - f.1) (inject_Z MIN_TPS)) eqn:Hg.
    + apply bool_decide_eq_true. unfold valid_segment, span.
      rewrite Hf, Hl. split; [lia |]. by apply Qgtb_lt.
    + apply bool_decide_eq_false. unfold valid_segment, span.
      rewrite Hf, Hl. intros [_ H%Qgtb_lt]. congruence.
  - symmetry. f_equal. apply bool_decide_eq_false. intros [H _]. lia.
Qed.

(** One window: the body of the loop emits one FlowPic if the packets of
    the window make a valid segment, and counts one skip otherwise. *)
Lemma segment_body_spec ts sizes t st :
  length ts = length sizes ->
  segment_body ts sizes t st
  = (Ok tt, after_window (window_packets t ts sizes) st).
Proof.
  intros Hlen. destruct (select_window t ts sizes Hlen) as [Hts Hsz].
  unfold segment_body, mask_index, after_window.
  rewrite decide_True by (unfold window_mask; by rewrite length_fmap).
  rewrite decide_True by (unfold window_mask; by rewrite length_fmap).
  rewrite Hts, Hsz.
  unfold mbind, M_bind, bind, lift, modify. rewrite is_valid_spec.
  destruct (decide (valid_segment _)) as [Hv|Hv].
  - by rewrite bool_decide_eq_true_2.
  - by rewrite bool_decide_eq_false_2.
Qed.

End SegmenterFacts.

Section SessionFacts.
Import Py Converter Spec.
Context `{RT : Runtime}.

Lemma for_each_pure {A : Type} (l : list A) (body : A -> M unit)
    (step : A -> conv_state -> conv_state) st :
  (forall x st', body x st' = (Ok tt, step x st')) ->
  for_each l body st = (Ok tt, foldl (fun s x => step x s) st l).
Proof.
  intros Hbody. revert st. induction l as [|x l IH]; intros st.
  - reflexivity.
  - simpl. unfold bind. rewrite Hbody. apply IH.
Qed.

Lemma range_lookup n i t :
  range n !! i = Some t <-> t = Z.of_nat i /\ Z.of_nat i < n.
Proof.
  unfold range. rewrite list_lookup_fmap. split.
  - intros H. apply fmap_Some in H as (k & Hk & ->).
    apply lookup_seq in Hk as [-> Hlt]. simpl. lia.
  - intros [-> Hlt]. rewrite lookup_seq_lt by lia. reflexivity.
Qed.

Lemma range_elem_of n t : t ∈ range n <-> 0 <= t < n.
Proof.
  rewrite list_elem_of_lookup. split.
  - intros [i Hi]. apply range_lookup in Hi. lia.
  - intros Ht. exists (Z.to_nat t). apply range_lookup. lia.
Qed.

Lemma range_len n : len (range n) = Z.max 0 n.
Proof. unfold len, range. rewrite length_fmap, length_seq. lia. Qed.


(** The state after the loop over the windows. *)
Lemma windows_fold ts sizes windows st :
  let st' :=
    foldl (fun s t => after_window (window_packets t ts sizes) s) st windows in
  dataset st' = dataset st
    ++ ((fun t => flowpic_of (window_packets t ts sizes))
          <$> valid_windows ts sizes windows) /\
  counter st' = counter st + len (valid_windows ts sizes windows) /\
  skipped_segments st'
  = skipped_segments st + len (invalid_windows ts sizes windows).
Proof.
  revert st. unfold valid_windows, invalid_windows, len.
  induction windows as [|t windows IH]; intros st; simpl.
  - rewrite app_nil_r. repeat split; lia.
  - destruct (IH (after_window (window_packets t ts sizes) st))
      as (Hd & Hc & Hs).
    rewrite Hd, Hc, Hs, !filter_cons. unfold after_window.
    destruct (decide (valid_segment (window_packets t ts sizes))) as [Hv|Hv].
    + rewrite decide_False by tauto. simpl.
      rewrite <- app_assoc. repeat split; (done || lia).
    + rewrite decide_True by done. simpl. repeat split; (done || lia).
Qed.

Lemma segment_session_unfold ts sizes last_ts st :
  len ts > 10 -> length ts = length sizes -> last ts = Some last_ts ->
  segment_session (len ts) ts sizes st
  = (Ok tt,
     foldl (fun s t => after_window (window_packets t ts sizes) s) st
       (window_indices last_ts)).
Proof.
  intros Hlen Heq Hlast. unfold segment_session.
  destruct (Z.gtb_spec (len ts) 10); [| lia].
  unfold mbind, M_bind, bind, lift. rewrite (getitem_last _ _ Hlast).
  apply for_each_pure. intros t st'. by apply segment_body_spec.
Qed.




End SessionFacts.

Section ShortSessions.
Import Py Converter Spec.
Context `{RT : Runtime}.

Lemma strongly_sorted_last (l : list Q) z :
  StronglySorted Qle l -> last l = Some z -> forall x, x ∈ l -> (x <= z)%Q.
Proof.
  induction 1 as [|a l Hsorted IH Hall]; intros Hlast x Hx.
  - by apply elem_of_nil in Hx.
  - destruct l as [|b l'].
    + apply list_elem_of_singleton in Hx as ->.
      injection Hlast as <-. apply Qle_refl.
    + change (last (a :: b :: l')) with (last (b :: l')) in Hlast.
      apply elem_of_cons in Hx as [-> | Hx]; [| by apply IH].
      apply last_Some_elem_of in Hlast.
      rewrite Forall_forall in Hall. by apply Hall.
Qed.

(** In chronological order, every timestamp lies between the first and the
    last. *)
Lemma nondecreasing_bounds ts first_ts last_ts :
  nondecreasing ts -> head ts = Some first_ts -> last ts = Some last_ts ->
  forall x, x ∈ ts -> (first_ts <= x <= last_ts)%Q.
Proof.
  intros Hs Hhead Hlast x Hx.
  apply (Sorted.Sorted_StronglySorted Qle_trans) in Hs.
  split; [| by eapply strongly_sorted_last].
  destruct ts as [|a ts]; [done |]. injection Hhead as ->.
  apply elem_of_cons in Hx as [-> | Hx]; [apply Qle_refl |].
  apply StronglySorted_inv in Hs as [_ Hall].
  rewrite Forall_forall in Hall. by apply Hall.
Qed.

Lemma window_packets_timestamp t ts sizes p :
  p ∈ window_packets t ts sizes -> p.1 ∈ ts.
Proof.
  unfold window_packets. intros [_ Hp]%list_elem_of_filter.
  destruct p as [x s]. by apply elem_of_zip_l in Hp.
Qed.

(** No window of a session is longer than the session. *)
Lemma span_le_duration t ts sizes first_ts last_ts :
  nondecreasing ts -> head ts = Some first_ts -> last ts = Some last_ts ->
  (span (window_packets t ts sizes) <= last_ts - first_ts)%Q.
Proof.
  intros Hs Hhead Hlast.
  pose proof (nondecreasing_bounds _ _ _ Hs Hhead Hlast) as Hb.
  assert (0 <= last_ts - first_ts)%Q as Hpos.
  { destruct (Hb first_ts) as [_ H]; [by apply head_Some_elem_of | lra]. }
  unfold span.
  destruct (head (window_packets t ts sizes)) as [f|] eqn:Hf; [| done].
  destruct (last (window_packets t ts sizes)) as [l|] eqn:Hl; [| done].
  apply head_Some_elem_of, window_packets_timestamp in Hf.
  apply last_Some_elem_of, window_packets_timestamp in Hl.
  destruct (Hb _ Hf) as [Hf1 _]. destruct (Hb _ Hl) as [_ Hl2]. lra.
Qed.

Lemma filter_none {A : Type} (P : A -> Prop) `{!forall x, Decision (P x)}
    (l : list A) :
  (forall x, ~ P x) -> filter P l = [].
Proof.
  intros Hnone. induction l as [|x l IH]; [done |].
  rewrite filter_cons, decide_False by apply Hnone. done.
Qed.

Lemma filter_all {A : Type} (P : A -> Prop) `{!forall x, Decision (P x)}
    (l : list A) :
  (forall x, P x) -> filter P l = l.
Proof.
  intros Hall. induction l as [|x l IH]; [done |].
  rewrite filter_cons, decide_True by apply Hall. by rewrite IH.
Qed.

(** C3, as the code has it: a session in chronological order whose total
    duration is at most [MIN_TPS] yields no FlowPic, without error: each
    window the loop enumerates is counted as skipped.  (A session shorter
    than [TPS] but longer than [MIN_TPS] still has its window [t = 0]
    examined, and can yield a FlowPic.) *)
Theorem brief_session_yields_no_segment ts sizes first_ts last_ts st :
  len ts > 10 -> length ts = length sizes ->
  nondecreasing ts ->
  head ts = Some first_ts -> last ts = Some last_ts ->
  (last_ts - first_ts <= inject_Z MIN_TPS)%Q ->
  segment_session (len ts) ts sizes st
  = (Ok tt,
     {| dataset := dataset st;
        counter := counter st;
        skipped_segments :=
          skipped_segments st + len (window_indices last_ts) |}).
Proof.
  intros Hlen Heq Hs Hhead Hlast Hdur.
  rewrite (segment_session_unfold _ _ last_ts) by done. f_equal.
  destruct (windows_fold ts sizes (window_indices last_ts) st)
    as (Hd & Hc & Hk). simpl in Hd, Hc, Hk.
  assert (forall t, ~ valid_segment (window_packets t ts sizes)) as Hnone.
  { intros t [_ Hv].
    pose proof (span_le_duration t ts sizes _ _ Hs Hhead Hlast) as Hsp.
    lra. }
  unfold valid_windows in Hd, Hc. unfold invalid_windows in Hk.
  rewrite filter_none in Hd, Hc by done.
  rewrite filter_all in Hk by done.
  rewrite app_nil_r in Hd. change (len []) with 0 in Hc.
  rewrite Z.add_0_r in Hc.
  destruct (foldl _ st _) as [d c k]. simpl in *. by subst.
Qed.

End ShortSessions.

(** * The Session Segmenter on concrete sessions *)

Section SegmenterExamples.
Import Py Converter Spec Demo.

Ltac sorted_by_computation :=
  unfold nondecreasing;
  repeat (apply Sorted_cons || apply Sorted_nil
          || apply HdRel_cons || apply HdRel_nil);
  by vm_compute.

(** C3 fails as stated: the twelve packets of [ts55] are in order and end
    at 55 seconds, before the window duration of 60, and the session yields
    one FlowPic. *)
Lemma session_shorter_than_window_yields_a_segment :
  len ts55 > 10 /\ length ts55 = length sz12 /\ nondecreasing ts55 /\
  head ts55 = Some 0%Q /\ last ts55 = Some 55%Q /\
  (55 - 0 < inject_Z TPS)%Q /\
  segment_session (len ts55) ts55 sz12 init_state
  = (Ok tt,
     {| dataset := [[(ts55, sz12)]]; counter := 1; skipped_segments := 0 |}).
Proof.
  split; [reflexivity |]. split; [reflexivity |].
  split; [sorted_by_computation |].
  split; [reflexivity |]. split; [reflexivity |].
  split; [by vm_compute | reflexivity].
Qed.

(** Eleven packets over 50 seconds: two windows, both skipped. *)
Lemma brief_session_yields_no_segment_witness :
  segment_session (len ts150) ts150 sz11 init_state
  = (Ok tt,
     {| dataset := dataset init_state;
        counter := counter init_state;
        skipped_segments :=
          skipped_segments init_state + len (window_indices 150) |}).
Proof.
  apply (brief_session_yields_no_segment ts150 sz11 100 150 init_state).
  - reflexivity.
  - reflexivity.
  - sorted_by_computation.
  - reflexivity.
  - reflexivity.
  - by vm_compute.
Defined.




(** The session of [ts130]: the first window is a valid segment, the second
    is not. *)
Example ts130_windows :
  valid_windows ts130 sz14 (window_indices 130) = [0] /\
  invalid_windows ts130 sz14 (window_indices 130) = [1] /\
  segment_session (len ts130) ts130 sz14 init_state
  = (Ok tt,
     {| dataset := [[(ts55, sz12)]]; counter := 1; skipped_segments := 1 |}).
Proof. repeat split; reflexivity. Qed.

End SegmenterExamples.

(** * The class directories *)

Section DirectoryFacts.
Import Py Converter Spec.
Context `{RT : Runtime}.

Lemma append_cons c (a b : string) : String c a +:+ b = String c (a +:+ b).
Proof. reflexivity. Qed.

Lemma prefix_append (a s : string) :
  String.prefix a s = true <-> exists post, s = a +:+ post.
Proof.
  revert s. induction a as [|c a IH]; intros s.
  - split; [intros _; by exists s | by destruct s].
  - destruct s as [|c' s]; simpl.
    + split; [done |]. intros [post Hp]. by rewrite append_cons in Hp.
    + destruct (Ascii.ascii_dec c c') as [<- | Hne].
      * rewrite IH. split; intros [post Hp]; exists post;
          rewrite append_cons in *; congruence.
      * split; [done |]. intros [post Hp].
        rewrite append_cons in Hp. congruence.
Qed.

(** [contains] is the substring test. *)
Lemma contains_substring (sub s : string) :
  contains sub s = true <-> exists pre post, s = pre +:+ sub +:+ post.
Proof.
  induction s as [|c s IH].
  - change (contains sub "") with (String.prefix sub "" || false).
    rewrite orb_false_r, prefix_append. split.
    + intros [post Hp]. by exists EmptyString, post.
    + intros (pre & post & Hp). destruct pre as [|c pre].
      * by exists post.
      * by rewrite append_cons in Hp.
  - change (contains sub (String c s))
      with (String.prefix sub (String c s) || contains sub s).
    rewrite orb_true_iff, IH, prefix_append. split.
    + intros [[post Hp] | (pre & post & Hp)].
      * by exists EmptyString, post.
      * exists (String c pre), post. by rewrite append_cons, Hp.
    + intros (pre & post & Hp). destruct pre as [|c' pre].
      * left. by exists post.
      * right. exists pre, post. rewrite append_cons in Hp. congruence.
Qed.

Lemma class_dir_step_eligible fs class_dir :
  class_dir_step fs class_dir
  = if decide (eligible fs class_dir) then process_class_dir fs class_dir
    else [].
Proof.
  unfold class_dir_step.
  destruct (decide (eligible fs class_dir)) as [[Hd Ho]|Hn].
  - by rewrite Hd, Ho.
  - destruct (isdir fs class_dir) eqn:Hd; [| done].
    destruct (contains "other" (lower class_dir)) eqn:Ho; [done |].
    by destruct Hn.
Qed.

Lemma bind_filter {A B : Type} (P : A -> Prop) `{!forall x, Decision (P x)}
    (f : A -> list B) (l : list A) :
  (x ← l; if decide (P x) then f x else []) = filter P l ≫= f.
Proof.
  induction l as [|x l IH]; [done |].
  rewrite filter_cons, bind_cons, IH.
  destruct (decide (P x)); [by rewrite bind_cons | done].
Qed.

Lemma bind_pointwise {A B : Type} (f g : A -> list B) (l : list A) :
  (forall x, f x = g x) -> l ≫= f = l ≫= g.
Proof.
  intros Hfg. induction l as [|x l IH]; [done |].
  by rewrite !bind_cons, IH, Hfg.
Qed.

Lemma process_class_dir_events fs d ev :
  ev ∈ process_class_dir fs d <->
  ev = Working_on d \/
  (exists f, f ∈ csv_files_in_dir fs d /\ ev = Opened f) \/
  (size (traffic_class_converter fs d).1 > 0 /\
   ev = Exported d (traffic_class_converter fs d).1).
Proof.
  unfold process_class_dir, traffic_class_converter. simpl.
  rewrite elem_of_cons, elem_of_app, list_elem_of_fmap.
  set (ds := concat _).
  destruct (Z.gtb_spec (size ds) 0) as [Hpos|Hpos].
  - rewrite list_elem_of_singleton. split.
    + intros [-> | [(f & -> & Hf) | ->]];
        [by left | right; left; eauto | right; right; split; [lia | done]].
    + intros [-> | [(f & Hf & ->) | [_ ->]]];
        [by left | right; left; eauto | by right; right].
  - rewrite elem_of_nil. split.
    + intros [-> | [(f & -> & Hf) | []]]; [by left | right; left; eauto].
    + intros [-> | [(f & Hf & ->) | [Hs _]]];
        [by left | right; left; eauto | lia].
Qed.

(** C10: the conversion works on the matched directories whose path, in
    lower case, does not contain ["other"], in sorted order, and on no
    other: a directory whose path contains ["other"] is never announced,
    none of its files is opened on its account and nothing is exported for
    it, whatever it holds; every other matched directory is processed, all
    its CSV files are opened, and its array is exported if it is not
    empty. *)
Theorem other_directories_are_skipped fs :
  iterate_all_classes fs
  = filter (eligible fs) (sorted (glob fs)) ≫= process_class_dir fs /\
  (forall d,
     contains "other" (lower d) = true ->
     (d ∉ filter (eligible fs) (sorted (glob fs))) /\
     (Working_on d ∉ iterate_all_classes fs) /\
     (forall ds, Exported d ds ∉ iterate_all_classes fs)) /\
  (forall d,
     d ∈ glob fs -> isdir fs d = true ->
     contains "other" (lower d) = false ->
     Working_on d ∈ iterate_all_classes fs /\
     (forall f, f ∈ csv_files_in_dir fs d ->
                Opened f ∈ iterate_all_classes fs) /\
     (size (traffic_class_converter fs d).1 > 0 ->
      Exported d (traffic_class_converter fs d).1 ∈ iterate_all_classes fs)).
Proof.
  assert (iterate_all_classes fs
          = filter (eligible fs) (sorted (glob fs)) ≫= process_class_dir fs)
    as Heq.
  { unfold iterate_all_classes. rewrite <- bind_filter.
    apply bind_pointwise, class_dir_step_eligible. }
  split; [done |]. rewrite Heq. split.
  - intros d Hother.
    assert (d ∉ filter (eligible fs) (sorted (glob fs))) as Hnot.
    { intros [[_ He] _]%list_elem_of_filter. congruence. }
    split; [done |]. split.
    + intros (d' & Hev & Hd')%list_elem_of_bind.
      apply process_class_dir_events in Hev
        as [[= <-] | [(f & _ & [=]) | [_ [=]]]]. done.
    + intros ds (d' & Hev & Hd')%list_elem_of_bind.
      apply process_class_dir_events in Hev
        as [[=] | [(f & _ & [=]) | [_ [= <- _]]]]. done.
  - intros d Hd Hdir Hother.
    assert (d ∈ filter (eligible fs) (sorted (glob fs))) as Hin.
    { apply list_elem_of_filter. split; [done |].
      unfold sorted. by rewrite merge_sort_Permutation. }
    split; [| split].
    + apply list_elem_of_bind. exists d. split; [| done].
      apply process_class_dir_events. by left.
    + intros f Hf. apply list_elem_of_bind. exists d. split; [| done].
      apply process_class_dir_events. right. left. eauto.
    + intros Hsize. apply list_elem_of_bind. exists d. split; [| done].
      apply process_class_dir_events. right. right. eauto.
Qed.

End DirectoryFacts.

Section DirectoryExamples.
Import Py Converter Spec Demo.

(** On [demo_fs]: the directory under [Other] holds a valid session and is
    passed over. *)
Example demo_fs_events :
  iterate_all_classes demo_fs
  = [Working_on "classes/chat/vpn/";
     Opened "classes/chat/vpn/a.csv";
     Exported "classes/chat/vpn/" [[(ts55, sz12)]];
     Working_on "classes/voip/tor/"].
Proof. reflexivity. Qed.

(** The directories of [demo_fs], through the theorem. *)
Lemma other_directories_are_skipped_witness :
  ((("classes/Other/vpn/" : string)
      ∉ filter (eligible demo_fs) (sorted (Converter.glob demo_fs))) /\
   (Working_on "classes/Other/vpn/" ∉ iterate_all_classes demo_fs) /\
   (forall ds,
      Exported "classes/Other/vpn/" ds ∉ iterate_all_classes demo_fs)) /\
  (Working_on "classes/chat/vpn/" ∈ iterate_all_classes demo_fs /\
   (forall f, f ∈ csv_files_in_dir demo_fs "classes/chat/vpn/" ->
              Opened f ∈ iterate_all_classes demo_fs) /\
   (size (traffic_class_converter demo_fs "classes/chat/vpn/").1 > 0 ->
    Exported "classes/chat/vpn/"
      (traffic_class_converter demo_fs "classes/chat/vpn/").1
      ∈ iterate_all_classes demo_fs)).
Proof.
  split.
  - apply (proj1 (proj2 (other_directories_are_skipped demo_fs))).
    reflexivity.
  - apply (proj2 (proj2 (other_directories_are_skipped demo_fs))).
    + apply elem_of_cons. by left.
    + reflexivity.
    + reflexivity.
Defined.

End DirectoryExamples.

(** * The Dataset Assembler *)

Section GeneratorFacts.
Import Py Generator Spec.
Context {X : Type} `{SK : Sklearn X}.

Lemma enumerate_snoc {A : Type} (l : list A) (x : A) :
  enumerate (l ++ [x]) = enumerate l ++ [(Z.of_nat (length l), x)].
Proof.
  unfold enumerate. rewrite imap_app. simpl.
  by rewrite Nat.add_0_r.
Qed.

Lemma class_to_label_snoc (names : list string) (name : string) :
  class_to_label (names ++ [name])
  = <[name := Z.of_nat (length names)]> (class_to_label names).
Proof.
  unfold class_to_label. by rewrite enumerate_snoc, foldl_snoc.
Qed.

(** The dictionary maps a name to its index, when no name occurs twice. *)
Lemma class_to_label_lookup (names : list string) i name :
  NoDup names -> names !! i = Some name ->
  class_to_label names !! name = Some (Z.of_nat i).
Proof.
  revert i name. induction names as [|x names IH] using rev_ind;
    intros i name Hnd Hi; [done |].
  rewrite class_to_label_snoc.
  apply NoDup_app in Hnd as (Hnd & Hx & _).
  apply lookup_app_Some in Hi as [Hi | [Hlen Hi]].
  - rewrite lookup_insert_ne; [by apply IH |].
    intros <-. apply (Hx x); [| by apply elem_of_cons; left].
    by eapply list_elem_of_lookup_2.
  - apply list_lookup_singleton_Some in Hi as [Hi <-].
    rewrite lookup_insert_eq. do 2 f_equal. lia.
Qed.

(** One class: what is appended depends on the first match alone. *)
Lemma class_step_first_match labels fs vpn_type acc class_name label p rest :
  labels !! class_name = Some label ->
  glob fs (class_vpn_file_pattern class_name vpn_type) = p :: rest ->
  class_step labels fs vpn_type acc class_name
  = Ok match import_array fs p with
       | Some data_array =>
           if size data_array >? 0 then
             (acc.1 ++ [data_array],
              acc.2 ++ [np_full (len data_array) label])
           else acc
       | None => acc
       end.
Proof.
  intros Hl Hg. unfold class_step. rewrite Hg, Hl.
  destruct (import_array fs p) as [d|]; [| done].
  by destruct (size d >? 0).
Qed.

Lemma class_step_rows labels fs vpn_type acc class_name label :
  labels !! class_name = Some label ->
  class_step labels fs vpn_type acc class_name
  = Ok match class_rows fs vpn_type class_name with
       | [] => acc
       | d => (acc.1 ++ [d], acc.2 ++ [np_full (len d) label])
       end.
Proof.
  intros Hl. unfold class_rows.
  destruct (glob fs (class_vpn_file_pattern class_name vpn_type))
    as [|p rest] eqn:Hg.
  - unfold class_step. by rewrite Hg.
  - rewrite (class_step_first_match _ _ _ _ _ label p rest) by done.
    unfold import_array.
    destruct (np_load fs p) as [d|]; [| done].
    destruct (Z.gtb_spec (size d) 0) as [Hpos|Hpos]; [| done].
    destruct d; [| done]. unfold size, len in Hpos. simpl in Hpos. lia.
Qed.

End GeneratorFacts.

Section CollectFacts.
Import Py Generator Spec.
Context {X : Type} `{SK : Sklearn X}.

Lemma class_names_nodup : NoDup CLASS_NAMES.
Proof. apply (bool_decide_unpack _). by vm_compute. Qed.

Lemma class_label_is_index i name :
  CLASS_NAMES !! i = Some name -> CLASS_TO_LABEL !! name = Some (Z.of_nat i).
Proof. apply class_to_label_lookup, class_names_nodup. Qed.

Lemma zip_np_full {A : Type} (d : list A) (v : Z) :
  zip d (np_full (len d) v) = (fun x => (x, v)) <$> d.
Proof.
  unfold np_full, len. rewrite Nat2Z.id.
  induction d as [|x d IH]; [done |]. simpl. by rewrite IH.
Qed.

Lemma np_full_length {A : Type} (d : list A) (v : Z) :
  length (np_full (len d) v) = length d.
Proof. unfold np_full, len. by rewrite Nat2Z.id, length_replicate. Qed.

(** The loop over the classes [names], whose indices start at [k]. *)
Lemma collect_from_spec labels (fs : FileSystem X) vpn_type names k acc :
  (forall j name,
     names !! j = Some name -> labels !! name = Some (Z.of_nat (k + j))) ->
  exists xs ys,
    collect_from labels fs vpn_type names acc = Ok (acc.1 ++ xs, acc.2 ++ ys) /\
    Forall2 (fun x y =>
               exists j name,
                 names !! j = Some name /\
                 x = class_rows fs vpn_type name /\
                 y = np_full (len x) (Z.of_nat (k + j))) xs ys /\
    zip (concat xs) (concat ys)
    = concat (imap (fun j name =>
                      (fun x => (x, Z.of_nat (k + j)))
                        <$> class_rows fs vpn_type name) names).
Proof.
  revert k acc. induction names as [|name names IH]; intros k acc Hlabels.
  - exists [], []. simpl. rewrite !app_nil_r. by destruct acc.
  - simpl. rewrite (class_step_rows _ _ _ _ _ (Z.of_nat (k + 0)))
      by (by apply Hlabels).
    unfold mbind, result_bind, rbind.
    set (acc' := match class_rows fs vpn_type name with
                 | [] => acc
                 | _ => _
                 end).
    destruct (IH (S k) acc') as (xs & ys & Hc & Hall & Hzip).
    { intros j name' Hj. rewrite (Hlabels (S j) name' Hj). do 2 f_equal. lia. }
    assert (Forall2 (fun x y =>
               exists j name',
                 (name :: names) !! j = Some name' /\
                 x = class_rows fs vpn_type name' /\
                 y = np_full (len x) (Z.of_nat (k + j))) xs ys) as Hall'.
    { eapply Forall2_impl; [exact Hall |].
      intros x y (j & name' & Hj & -> & ->). exists (S j), name'.
      repeat split; [done |]. do 2 f_equal. lia. }
    assert (concat (imap (fun j name' =>
                      (fun x => (x, Z.of_nat (k + S j)))
                        <$> class_rows fs vpn_type name') names)
            = zip (concat xs) (concat ys)) as Hzip'.
    { rewrite Hzip. f_equal. apply imap_ext. intros j name' _.
      simpl. by replace (k + S j)%nat with (S (k + j)) by lia. }
    unfold compose. rewrite Hzip'. rewrite Hc. subst acc'.
    destruct (class_rows fs vpn_type name) as [|x d] eqn:Hrows.
    + exists xs, ys. repeat split; done.
    + exists ((x :: d) :: xs), (np_full (len (x :: d)) (Z.of_nat (k + 0)) :: ys).
      cbn [fst snd]. rewrite <- !app_assoc. split; [done |]. split.
      * constructor; [| done]. exists 0%nat, name. by rewrite Hrows.
      * cbn [concat]. rewrite zip_with_app by (by rewrite np_full_length).
        by rewrite zip_np_full.
Qed.

(** C9: the dictionary maps the class at index [i] of [CLASS_NAMES] to [i];
    for every tunnel type the loop over the classes ends normally; each
    label array it collects belongs to one class, whose rows are the
    feature array beside it, and repeats the index of that class once per
    row; and in the combined arrays every row carries the index of the
    class it comes from. *)
Theorem labels_are_class_indices (fs : FileSystem X) vpn_type :
  (forall i name,
     CLASS_NAMES !! i = Some name ->
     CLASS_TO_LABEL !! name = Some (Z.of_nat i)) /\
  exists all_x all_y,
    collect fs vpn_type = Ok (all_x, all_y) /\
    Forall2 (fun x y =>
               exists i name,
                 CLASS_NAMES !! i = Some name /\
                 x = class_rows fs vpn_type name /\
                 y = replicate (length x) (Z.of_nat i)) all_x all_y /\
    length (concat all_y) = length (concat all_x) /\
    zip (concat all_x) (concat all_y) = tagged_rows fs vpn_type CLASS_NAMES.
Proof.
  split; [apply class_label_is_index |].
  destruct (collect_from_spec CLASS_TO_LABEL fs vpn_type CLASS_NAMES 0 ([], []))
    as (xs & ys & Hc & Hall & Hzip).
  { intros j name Hj. by apply class_label_is_index. }
  exists xs, ys. split; [exact Hc |].
  assert (Forall2 (fun x y =>
               exists i name,
                 CLASS_NAMES !! i = Some name /\
                 x = class_rows fs vpn_type name /\
                 y = replicate (length x) (Z.of_nat i)) xs ys) as Hall'.
  { eapply Forall2_impl; [exact Hall |].
    intros x y (j & name & Hj & -> & ->). exists j, name.
    repeat split; [done |]. unfold np_full, len. by rewrite Nat2Z.id. }
  split; [exact Hall' |]. split; [| exact Hzip].
  clear Hc Hall Hzip. induction Hall' as [|x y xs ys (i & name & _ & _ & ->) _ IH];
    [done |].
  simpl. rewrite !length_app, IH, length_replicate. done.
Qed.


(** C8: the split of the combined arrays is drawn from a generator seeded
    with [RANDOM_STATE], for the proportion [TEST_SIZE], stratified on the
    labels: it does not depend on the state of the ambient generator, and
    two runs on the same files write the same partitions. *)
Theorem split_is_deterministic (g1 g2 : rng) :
  (forall x y,
     split_combined g1 x y
     = shuffle_split (RandomState RANDOM_STATE) TEST_SIZE (Some y) x y) /\
  (forall x y, split_combined g1 x y = split_combined g2 x y) /\
  (forall fs : FileSystem X,
     generate_combined_vpn_type_test_sets g1 fs
     = generate_combined_vpn_type_test_sets g2 fs).
Proof.
  split; [done |]. split; [done |].
  intros fs. unfold generate_combined_vpn_type_test_sets.
  induction VPN_TYPES_TO_GENERATE as [|vpn_type rest IH]; [done |].
  simpl. rewrite IH. reflexivity.
Qed.

End CollectFacts.

(** * The Dataset Assembler on concrete files *)

Section GeneratorExamples.
Import Py Generator Spec Demo.



(** For contrast: without a seed, the split follows the ambient
    generator. *)
Example unseeded_split_follows_ambient :
  train_test_split 0 [1; 2; 3; 4; 5] [0; 0; 1; 1; 1] 0.2 None None
  <> train_test_split 1 [1; 2; 3; 4; 5] [0; 0; 1; 1; 1] 0.2 None None.
Proof. by vm_compute. Qed.

End GeneratorExamples.

(** * Rows, sessions and files, as sums of contributions *)

Section ContributionFacts.
Import Py Converter Spec Rows.
Context `{RT : Runtime}.

Lemma advance_nil st k :
  advance st [] k
  = {| dataset := dataset st;
       counter := counter st;
       skipped_segments := skipped_segments st + k |}.
Proof.
  unfold advance. rewrite app_nil_r. change (len []) with 0.
  by rewrite Z.add_0_r.
Qed.

Lemma advance_zero st : advance st [] 0 = st.
Proof. rewrite advance_nil, Z.add_0_r. by destruct st. Qed.

Lemma advance_skip st : advance st [] 1 = skip st.
Proof. by rewrite advance_nil. Qed.

Lemma advance_advance st a j b k :
  advance (advance st a j) b k = advance st (a ++ b) (j + k).
Proof.
  unfold advance. simpl. rewrite <- app_assoc. f_equal.
  - unfold len. rewrite length_app. lia.
  - lia.
Qed.

(** With arrays of different length, the first window raises and nothing
    is appended. *)
Lemma segment_body_mismatch ts sizes t st :
  length ts <> length sizes ->
  segment_body ts sizes t st = (Raise IndexError, st).
Proof.
  intros Hne. unfold segment_body, mask_index, window_mask. cbv zeta.
  destruct (decide (length ts = length (in_window t <$> ts))) as [_|Hn];
    [| by rewrite length_fmap in Hn].
  destruct (decide (length sizes = length (in_window t <$> ts))) as [He|_];
    [rewrite length_fmap in He; congruence |].
  reflexivity.
Qed.

(** A parsed session, with the handler of the row around it. *)
Lemma session_effect length ts sizes st :
  try_except (segment_session length ts sizes) (fun _ => modify skip) st
  = (Ok tt,
     advance st (session_flowpics length ts sizes)
       (session_skips length ts sizes)).
Proof.
  unfold try_except, segment_session, session_flowpics, session_skips.
  destruct (Z.gtb_spec length 10) as [Hlen|Hlen].
  2:{ rewrite decide_False by lia.
      assert (match last ts with
              | Some last_ts =>
                  if decide (10 < length /\ Datatypes.length ts
                                            = Datatypes.length sizes)
                  then (fun t => flowpic_of (window_packets t ts sizes))
                         <$> valid_windows ts sizes (window_indices last_ts)
                  else []
              | None => []
              end = []) as ->.
      { destruct (last ts); [| done]. by rewrite decide_False by lia. }
      unfold modify. by rewrite advance_skip. }
  rewrite decide_True by lia.
  unfold mbind, M_bind, bind, lift.
  destruct (last ts) as [last_ts|] eqn:Hlast.
  - rewrite (getitem_last _ _ Hlast).
    destruct (decide (Datatypes.length ts = Datatypes.length sizes))
      as [Heq|Hne].
    + rewrite decide_True by (split; [lia | done]).
      rewrite (for_each_pure _ _
                 (fun t s => after_window (window_packets t ts sizes) s))
        by (intros; by apply segment_body_spec).
      destruct (windows_fold ts sizes (window_indices last_ts) st)
        as (Hd & Hc & Hk). simpl in Hd, Hc, Hk.
      f_equal. destruct (foldl _ st _) as [d c k]. simpl in *. subst.
      unfold advance. f_equal. unfold len. by rewrite length_fmap.
    + rewrite decide_False by (by intros [_ ?]).
      destruct (window_indices last_ts) as [|t windows].
      * rewrite decide_True by done. simpl. unfold ret.
        by rewrite advance_zero.
      * rewrite decide_False by done. simpl. unfold bind.
        rewrite segment_body_mismatch by done.
        unfold modify. by rewrite advance_skip.
  - apply last_None in Hlast as ->.
    simpl. unfold modify. by rewrite advance_skip.
Qed.

(** One row. *)
Lemma row_effect row st :
  process_row row st
  = (Ok tt, advance st (row_flowpics row) (row_skips row)).
Proof.
  unfold row_flowpics, row_skips, parse_outcome.
  destruct (Z.ltb_spec (len row) 9) as [Hlen|Hlen].
  - rewrite process_row_short by done. by rewrite advance_zero.
  - rewrite process_row_unfold by done.
    destruct (parse_row row) as [[[[length ts] sizes]|]|e].
    + apply session_effect.
    + by rewrite advance_zero.
    + by rewrite advance_skip.
Qed.

Lemma rows_effect rows st :
  for_each rows process_row st
  = (Ok tt,
     advance st (concat (row_flowpics <$> rows))
       (sum_list (row_skips <$> rows))).
Proof.
  revert st. induction rows as [|row rows IH]; intros st.
  - simpl. unfold ret. by rewrite advance_zero.
  - rewrite for_each_cons by (by rewrite row_effect).
    rewrite row_effect, IH. simpl. by rewrite advance_advance.
Qed.

Lemma session_skips_bounds length ts sizes :
  0 <= session_skips length ts sizes.
Proof.
  unfold session_skips.
  destruct (decide (10 < length)); [| lia].
  destruct (last ts); [| lia].
  repeat case_decide; unfold len; lia.
Qed.

Lemma row_skips_nonneg row : 0 <= row_skips row.
Proof.
  unfold row_skips.
  destruct (parse_outcome row) as [[[[length ts] sizes]|]|e]; try lia.
  apply session_skips_bounds.
Qed.

Lemma sum_list_nonneg l : Forall (fun k => 0 <= k) l -> 0 <= sum_list l.
Proof. induction 1; simpl; lia. Qed.

(** X1: from any state and for any rows, the loop over the rows ends
    normally; it only appends to [dataset], and what it appends are
    one-element lists; [counter] grows by the number of FlowPics appended,
    so that the two agree at the end when they agree at the start; and
    [skipped_segments] does not decrease. *)
Theorem counters_follow_the_dataset rows st :
  (exists flowpics skips,
     for_each rows process_row st
     = (Ok tt,
        {| dataset := dataset st ++ flowpics;
           counter := counter st + len flowpics;
           skipped_segments := skipped_segments st + skips |}) /\
     0 <= skips /\
     Forall (fun pic => length pic = 1%nat) flowpics) /\
  (counter st = len (dataset st) ->
   counter (for_each rows process_row st).2
   = len (dataset (for_each rows process_row st).2)).
Proof.
  split.
  - exists (concat (row_flowpics <$> rows)), (sum_list (row_skips <$> rows)).
    split; [apply rows_effect |]. split.
    + apply sum_list_nonneg, Forall_fmap, Forall_forall.
      intros row _. apply row_skips_nonneg.
    + apply Forall_forall. intros pic Hin.
      apply list_elem_of_In, in_concat in Hin as (l & Hl & Hpic).
      apply list_elem_of_In, list_elem_of_fmap in Hl as (row & -> & _).
      apply list_elem_of_In in Hpic. unfold row_flowpics in Hpic.
      destruct (parse_outcome row) as [[[[length ts] sizes]|]|e];
        try by apply elem_of_nil in Hpic.
      unfold session_flowpics in Hpic.
      destruct (last ts); [| by apply elem_of_nil in Hpic].
      case_decide; [| by apply elem_of_nil in Hpic].
      by apply list_elem_of_fmap in Hpic as (t & -> & _).
  - intros Hst. rewrite rows_effect. simpl. unfold len in *.
    rewrite length_app. lia.
Qed.

Lemma row_flowpics_alone row :
  row_flowpics row = dataset (process_row row init_state).2.
Proof. by rewrite row_effect. Qed.

(** X2: the array a file converts to is the concatenation, in the order of
    the rows, of what each row yields when it is processed alone: a row
    contributes the same FlowPics whatever rows come before it.  A file
    that cannot be read converts to the empty array. *)
Theorem file_is_the_concatenation_of_its_rows fs file_path :
  traffic_csv_converter fs file_path
  = match read_csv fs file_path with
    | Some rows =>
        concat ((fun row => dataset (process_row row init_state).2) <$> rows)
    | None => []
    end.
Proof.
  unfold traffic_csv_converter.
  destruct (read_csv fs file_path) as [rows|]; [| done].
  rewrite rows_effect. simpl. f_equal.
  apply list_fmap_ext. intros _ row _. apply row_flowpics_alone.
Qed.

Lemma parse_outcome_accepted row length ts sizes :
  parse_outcome row = Ok (Some (length, ts, sizes)) <->
  accepted row length ts sizes.
Proof.
  unfold parse_outcome, accepted.
  destruct (Z.ltb_spec (len row) 9) as [Hlen|Hlen].
  - split; [done | intros [? _]; lia].
  - split; [by intros ? | by intros [_ ?]].
Qed.



(** X4: an accepted row that declares at most 10 packets, a negative
    number included, yields no FlowPic and is counted as one skipped
    segment. *)
Theorem short_declaration_is_one_skip row length ts sizes st :
  accepted row length ts sizes -> length <= 10 ->
  process_row row st = (Ok tt, skip st).
Proof.
  intros Hacc Hlen. rewrite row_effect.
  unfold row_flowpics, row_skips.
  apply parse_outcome_accepted in Hacc. rewrite Hacc.
  unfold session_flowpics, session_skips.
  rewrite decide_False by lia.
  destruct (last ts);
    [rewrite decide_False by lia |]; by rewrite advance_skip.
Qed.

End ContributionFacts.

(** * Which windows are examined *)

Section WindowFacts.
Import Py Converter Spec Rows.
Context `{RT : Runtime}.

Lemma int_of_float_nonneg x : (0 <= x)%Q -> int_of_float x = Qfloor x.
Proof.
  intros H. unfold int_of_float, Qfloor. destruct x as [n d]. simpl.
  unfold Qle in H. simpl in H. apply Z.quot_div_nonneg; lia.
Qed.

Lemma int_of_float_small x : (-1 < x)%Q -> (x < 0)%Q -> int_of_float x = 0.
Proof.
  intros H1 H2. unfold int_of_float. destruct x as [n d].
  unfold Qlt in *. simpl in *. apply Z.quot_small_iff; lia.
Qed.

Lemma int_of_float_negative x : (x <= -1)%Q -> int_of_float x <= -1.
Proof.
  intros H. unfold int_of_float. destruct x as [n d].
  unfold Qle in H. simpl in *.
  replace n with (- (- n)) by lia. rewrite Z.quot_opp_l by lia.
  rewrite Z.quot_div_nonneg by lia.
  assert (0 < - n / Z.pos d); [| lia].
  apply Z.div_str_pos. lia.
Qed.

Lemma Qfloor_ge (t : Z) x : t <= Qfloor x <-> (inject_Z t <= x)%Q.
Proof.
  split.
  - intros H. eapply Qle_trans; [| apply Qfloor_le]. by rewrite <- Zle_Qle.
  - intros H. apply Qfloor_resp_le in H. by rewrite Qfloor_Z in H.
Qed.

(** The argument of [int] in line 97. *)
Lemma window_bound_eq last_ts :
  (last_ts / inject_Z DELTA_T - inject_Z TPS / inject_Z DELTA_T
   == (last_ts - 60) * (1 # 60))%Q.
Proof.
  destruct last_ts as [n d]. unfold Qeq, Qdiv, Qminus, Qplus, Qmult, Qinv,
    Qopp, DELTA_T, TPS. simpl. lia.
Qed.

Lemma inject_window_end t :
  (inject_Z (t * DELTA_T + TPS) == 60 * inject_Z t + 60)%Q.
Proof.
  unfold DELTA_T, TPS. rewrite inject_Z_plus, inject_Z_mult.
  change (inject_Z 60) with 60%Q. lra.
Qed.

Lemma inject_window_start t : (inject_Z (t * DELTA_T) == 60 * inject_Z t)%Q.
Proof.
  unfold DELTA_T. rewrite inject_Z_mult.
  change (inject_Z 60) with 60%Q. lra.
Qed.

Lemma window_count_cases last_ts :
  ((last_ts <= 0)%Q /\ window_count last_ts <= 0) \/
  ((0 < last_ts)%Q /\ (last_ts < 60)%Q /\ window_count last_ts = 1) \/
  ((60 <= last_ts)%Q /\
   forall t,
     t < window_count last_ts <-> (60 * inject_Z t + 60 <= last_ts)%Q).
Proof.
  unfold window_count.
  pose proof (window_bound_eq last_ts) as Hq.
  set (q := (last_ts / inject_Z DELTA_T
             - inject_Z TPS / inject_Z DELTA_T)%Q) in *.
  destruct (Qlt_le_dec 0 last_ts) as [Hpos|Hneg].
  - destruct (Qlt_le_dec last_ts 60) as [Hlt|Hge].
    + right. left. repeat split; [done | done |].
      rewrite int_of_float_small; [done | lra | lra].
    + right. right. split; [done |]. intros t.
      rewrite int_of_float_nonneg by lra. split; intros Ht.
      * assert (t <= Qfloor q) as Hle%Qfloor_ge by lia. lra.
      * assert (inject_Z t <= q)%Q as Hle%Qfloor_ge by lra. lia.
  - left. split; [done |].
    assert (q <= -1)%Q as Hle%int_of_float_negative by lra. lia.
Qed.


Lemma inject_Z_nonneg t : 0 <= t -> (0 <= inject_Z t)%Q.
Proof. intros H. change 0%Q with (inject_Z 0). by rewrite <- Zle_Qle. Qed.


(** X6: the timestamps that fall into some examined window are those
    between 0 and [DELTA_T] times the number of windows.  For a session
    that lasts at least [TPS], the number of windows is the integer part of
    [last / 60]: the packets after the last full minute are in no window. *)
Theorem covered_timestamps last_ts x :
  ((exists t, t ∈ window_indices last_ts /\ within t x) <->
   0 < window_count last_ts /\
   (0 <= x)%Q /\ (x <= inject_Z (DELTA_T * window_count last_ts))%Q) /\
  ((inject_Z TPS <= last_ts)%Q ->
   window_count last_ts = Qfloor (last_ts * (1 # 60))).
Proof.
  split.
  - unfold window_indices, within.
    set (n := window_count last_ts). split.
    + intros (t & [Ht0 Htn]%range_elem_of & Hlo & Hhi).
      split; [lia |]. split.
      * eapply Qle_trans; [| exact Hlo]. apply inject_Z_nonneg.
        unfold DELTA_T. lia.
      * eapply Qle_trans; [exact Hhi |]. rewrite <- Zle_Qle.
        unfold DELTA_T, TPS. lia.
    + intros (Hn & Hx0 & Hxn).
      set (f := Qfloor (x * (1 # 60))).
      assert (0 <= f) as Hf.
      { apply Qfloor_ge. change (inject_Z 0) with 0%Q. lra. }
      assert (inject_Z f <= x * (1 # 60))%Q as Hf1 by apply Qfloor_le.
      assert (x * (1 # 60) < inject_Z (f + 1))%Q as Hf2 by apply Qlt_floor.
      rewrite inject_Z_plus in Hf2. change (inject_Z 1) with 1%Q in Hf2.
      unfold DELTA_T in Hxn. rewrite inject_Z_mult in Hxn.
      change (inject_Z 60) with 60%Q in Hxn.
      exists (Z.min f (n - 1)). rewrite range_elem_of.
      rewrite inject_window_start, inject_window_end.
      destruct (Z.min_spec f (n - 1)) as [[Hlt ->] | [Hle ->]].
      * split; [lia |]. split; lra.
      * split; [lia |]. rewrite Zle_Qle in Hle.
        assert (inject_Z n == inject_Z (n - 1) + 1)%Q as Hn1.
        { change 1%Q with (inject_Z 1). rewrite <- inject_Z_plus.
          by replace (n - 1 + 1) with n by lia. }
        rewrite Hn1 in Hxn. split; lra.
  - intros Hge. change (inject_Z TPS) with 60%Q in Hge.
    destruct (window_count_cases last_ts)
      as [[Hneg Hn] | [(Hpos & Hlt & Hn) | [_ Hn]]]; [lra | lra |].
    set (n := window_count last_ts) in *.
    set (f := Qfloor (last_ts * (1 # 60))).
    assert (forall t, t < n <-> t + 1 <= f) as Hnf.
    { intros t. rewrite Hn. unfold f. rewrite Qfloor_ge, inject_Z_plus.
      change (inject_Z 1) with 1%Q. split; intros; lra. }
    pose proof (proj1 (Hnf (n - 1))). pose proof (proj2 (Hnf (f - 1))). lia.
Qed.

(** X7: both ends of a window are included, and consecutive windows share
    an end: a timestamp that lies in two different windows lies in two
    consecutive ones, on their common end, a multiple of 60; every such
    timestamp counts in both windows. *)
Theorem windows_share_their_ends t t' x :
  (within t x -> within t' x -> t < t' ->
   t' = t + 1 /\ (x == inject_Z (t' * DELTA_T))%Q) /\
  ((x == inject_Z ((t + 1) * DELTA_T))%Q -> within t x /\ within (t + 1) x).
Proof.
  unfold within. split.
  - intros [Hlo Hhi] [Hlo' Hhi'] Hlt.
    assert (t' * DELTA_T <= t * DELTA_T + TPS) as Hz.
    { rewrite Zle_Qle. by eapply Qle_trans. }
    unfold DELTA_T, TPS in Hz.
    assert (t' = t + 1) as -> by lia. split; [done |].
    apply Qle_antisym; [| done].
    eapply Qle_trans; [exact Hhi |]. rewrite <- Zle_Qle.
    unfold DELTA_T, TPS. lia.
  - intros Hx. rewrite !inject_window_start, !inject_window_end.
    rewrite inject_window_start in Hx. rewrite inject_Z_plus in *.
    change (inject_Z 1) with 1%Q in *. repeat split; lra.
Qed.



End WindowFacts.

(** * More on the class directories *)

Section DirectoryOrder.
Import Py Converter Spec Rows.
Context `{RT : Runtime}.

Lemma concat_Permutation {A : Type} (l1 l2 : list (list A)) :
  l1 ≡ₚ l2 -> concat l1 ≡ₚ concat l2.
Proof.
  induction 1 as [|x l1 l2 _ IH|x y l|l1 l2 l3 _ IH1 _ IH2]; simpl.
  - done.
  - by rewrite IH.
  - rewrite !app_assoc. f_equiv. apply Permutation_app_comm.
  - by etransitivity.
Qed.

Lemma traffic_csv_converter_ext fs fs' file_path :
  read_csv fs file_path = read_csv fs' file_path ->
  traffic_csv_converter fs file_path = traffic_csv_converter fs' file_path.
Proof. intros H. unfold traffic_csv_converter. by rewrite H. Qed.

(** X9: the array of a class directory does not depend on the order in
    which the directory lists its files, up to the order of its rows: two
    listings with the same files give the same FlowPics, each as many
    times, and open the same files. *)
Theorem listing_order_permutes_the_rows fs fs' dir_path :
  (forall file_path, read_csv fs file_path = read_csv fs' file_path) ->
  listdir fs dir_path ≡ₚ listdir fs' dir_path ->
  (traffic_class_converter fs dir_path).1
    ≡ₚ (traffic_class_converter fs' dir_path).1 /\
  (traffic_class_converter fs dir_path).2
    ≡ₚ (traffic_class_converter fs' dir_path).2.
Proof.
  intros Hread Hlist. unfold traffic_class_converter. simpl.
  assert (csv_files_in_dir fs dir_path ≡ₚ csv_files_in_dir fs' dir_path)
    as Hfiles.
  { unfold csv_files_in_dir. by rewrite Hlist. }
  split; [| by rewrite Hfiles].
  apply concat_Permutation.
  assert (traffic_csv_converter fs' <$> csv_files_in_dir fs' dir_path
          = traffic_csv_converter fs <$> csv_files_in_dir fs' dir_path)
    as ->.
  { apply list_fmap_ext. intros _ f _.
    symmetry. by apply traffic_csv_converter_ext. }
  by rewrite Hfiles.
Qed.

Lemma iterate_all_classes_eligible fs :
  iterate_all_classes fs
  = filter (eligible fs) (sorted (Converter.glob fs)) ≫= process_class_dir fs.
Proof.
  unfold iterate_all_classes. rewrite <- bind_filter.
  apply bind_pointwise, class_dir_step_eligible.
Qed.

(** X10: whatever the conversion does, it does for a matched directory
    that is a directory and whose path does not contain ["other"]: each
    file it opens is an entry of such a directory whose name ends with
    [".csv"], and each array it exports is the array of such a directory,
    and is not empty. *)
Theorem events_have_an_eligible_directory fs ev :
  ev ∈ iterate_all_classes fs ->
  exists d,
    d ∈ Converter.glob fs /\ eligible fs d /\
    (ev = Working_on d \/
     (exists fn,
        fn ∈ listdir fs d /\ endswith fn ".csv" = true /\
        ev = Opened (path_join d fn)) \/
     (ev = Exported d (traffic_class_converter fs d).1 /\
      (traffic_class_converter fs d).1 <> [] /\ 0 < flowpic_size)).
Proof.
  rewrite iterate_all_classes_eligible.
  intros (d & Hev & Hd)%list_elem_of_bind.
  apply list_elem_of_filter in Hd as [Hel Hd].
  unfold sorted in Hd. rewrite merge_sort_Permutation in Hd.
  exists d. split; [done |]. split; [done |].
  apply process_class_dir_events in Hev
    as [-> | [(f & Hf & ->) | [Hsize ->]]].
  - by left.
  - right. left. unfold csv_files_in_dir in Hf.
    apply list_elem_of_fmap in Hf as (fn & -> & Hfn).
    apply list_elem_of_filter in Hfn as [Hcsv Hfn]. by exists fn.
  - right. right. split; [done |].
    unfold size, len in Hsize.
    destruct ((traffic_class_converter fs d).1) as [|pic ds]; simpl in *;
      [lia |].
    split; [done | nia].
Qed.

End DirectoryOrder.

(** * The exported file and the file the generator looks for *)

Section ExportFacts.
Import Py Exporter Generator.

Lemma append_assoc (a b c : string) : (a +:+ b) +:+ c = a +:+ b +:+ c.
Proof.
  induction a as [|x a IH]; [done |].
  by rewrite !append_cons, IH.
Qed.

Lemma findall_cons c s :
  findall_words (String c s)
  = if is_word c then
      match s with
      | EmptyString => [String c EmptyString]
      | String c' _ =>
          if is_word c' then
            match findall_words s with
            | w :: ws => String c w :: ws
            | [] => [String c EmptyString]
            end
          else String c EmptyString :: findall_words s
      end
    else findall_words s.
Proof. by destruct s. Qed.

Lemma findall_starts c s :
  is_word c = true -> findall_words (String c s) <> [].
Proof.
  intros Hc. rewrite findall_cons, Hc.
  destruct s as [|c' s]; [done |].
  destruct (is_word c'); [| done].
  by destruct (findall_words (String c' s)).
Qed.

(** A word is its own single run. *)
Lemma findall_word w :
  word w = true -> w <> EmptyString -> findall_words w = [w].
Proof.
  induction w as [|c w IH]; [done |]. intros Hw _.
  simpl in Hw. apply andb_true_iff in Hw as [Hc Hw].
  rewrite findall_cons, Hc. destruct w as [|c' w]; [done |].
  assert (is_word c' = true) as Hc'.
  { simpl in Hw. by apply andb_true_iff in Hw as [? _]. }
  by rewrite Hc', IH.
Qed.

(** A word followed by a character outside the class is the first run. *)
Lemma findall_word_then w c rest :
  word w = true -> w <> EmptyString -> is_word c = false ->
  findall_words (w +:+ String c rest) = w :: findall_words rest.
Proof.
  induction w as [|a w IH]; [done |]. intros Hw _ Hc.
  simpl in Hw. apply andb_true_iff in Hw as [Ha Hw].
  rewrite append_cons, findall_cons, Ha. destruct w as [|b w].
  - change (EmptyString +:+ String c rest) with (String c rest).
    cbv iota. by rewrite Hc, findall_cons, Hc.
  - assert (is_word b = true) as Hb.
    { simpl in Hw. by apply andb_true_iff in Hw as [? _]. }
    rewrite append_cons. cbv iota. rewrite Hb, <- append_cons.
    by rewrite IH.
Qed.

(** After a prefix that ends outside a run, the runs of the rest follow
    those of the prefix. *)
Lemma findall_app p s :
  ends_outside_word p = true ->
  findall_words (p +:+ s) = findall_words p ++ findall_words s.
Proof.
  induction p as [|a p IH]; [done |]. intros Hp.
  destruct p as [|b p].
  - simpl in Hp. apply negb_true_iff in Hp.
    change (String a EmptyString +:+ s) with (String a s).
    by rewrite !findall_cons, Hp.
  - assert (ends_outside_word (String b p) = true) as Hp' by done.
    specialize (IH Hp').
    rewrite append_cons, findall_cons, (findall_cons a (String b p)).
    destruct (is_word a); [| done].
    rewrite append_cons. cbv iota. rewrite <- append_cons, IH.
    destruct (is_word b) eqn:Hb; [| done].
    pose proof (findall_starts b p Hb) as Hne.
    by destruct (findall_words (String b p)).
Qed.

Lemma slice_last_two {A : Type} (l : list A) (a b : A) :
  slice (l ++ [a; b]) (-2) None = [a; b].
Proof.
  unfold slice, clamp, len. change (-2 <? 0) with true. cbv iota.
  rewrite length_app. simpl.
  replace (Z.to_nat (Z.max (-2 + Z.of_nat (length l + 2)) 0))
    with (length l) by lia.
  rewrite drop_app_length. apply take_ge. simpl. lia.
Qed.

Lemma substring_all (s : string) :
  String.substring 0 (String.length s) s = s.
Proof. induction s as [|c s IH]; simpl; [done | by rewrite IH]. Qed.

Lemma substring_last (x s : string) :
  String.substring (String.length x) (String.length s) (x +:+ s) = s.
Proof.
  induction x as [|c x IH].
  - apply substring_all.
  - rewrite append_cons. simpl. exact IH.
Qed.

Lemma length_append (x s : string) :
  String.length (x +:+ s) = (String.length x + String.length s)%nat.
Proof.
  induction x as [|c x IH]; [done |]. rewrite append_cons. simpl.
  by rewrite IH.
Qed.

Lemma endswith_append (x s : string) : endswith (x +:+ s) s = true.
Proof.
  unfold endswith. rewrite length_append. apply andb_true_iff. split.
  - apply Nat.leb_le. lia.
  - replace (String.length x + String.length s - String.length s)%nat
      with (String.length x) by lia.
    rewrite substring_last. apply String.eqb_refl.
Qed.

Lemma prefix_slash_word c s :
  is_word c = true -> String.prefix "/" (String c s) = false.
Proof.
  intros Hc. destruct (String.prefix "/" (String c s)) eqn:Hp; [| done].
  apply prefix_append in Hp as [post Hp].
  change ("/" +:+ post) with (String "/" post) in Hp.
  injection Hp as -> _. by vm_compute in Hc.
Qed.

(** The directory [root/cls/vpn/], for words [cls] and [vpn]. *)
Lemma export_in_root root cls vpn :
  ends_outside_word root = true ->
  word cls = true -> cls <> EmptyString ->
  word vpn = true -> vpn <> EmptyString ->
  output_filename (root +:+ cls +:+ "/" +:+ vpn +:+ "/")
  = cls +:+ "_" +:+ vpn +:+ ".npy" /\
  output_path (root +:+ cls +:+ "/" +:+ vpn +:+ "/")
  = root +:+ cls +:+ "/" +:+ vpn +:+ "/" +:+ cls +:+ "_" +:+ vpn +:+ ".npy".
Proof.
  intros Hroot Hcls Hcls' Hvpn Hvpn'.
  assert (output_filename (root +:+ cls +:+ "/" +:+ vpn +:+ "/")
          = cls +:+ "_" +:+ vpn +:+ ".npy") as Hname.
  { unfold output_filename. rewrite findall_app by done.
    change ("/" +:+ vpn +:+ "/") with (String "/" (vpn +:+ "/")).
    rewrite findall_word_then by done.
    change (vpn +:+ "/") with (vpn +:+ String "/" EmptyString).
    rewrite findall_word_then by done.
    change (findall_words EmptyString) with (@nil string).
    rewrite slice_last_two. simpl. by rewrite !append_assoc. }
  split; [done |].
  unfold output_path, path_join. rewrite Hname.
  destruct cls as [|c cls]; [done |].
  assert (is_word c = true) as Hc.
  { simpl in Hcls. by apply andb_true_iff in Hcls as [? _]. }
  assert (String.prefix "/" (String c cls +:+ "_" +:+ vpn +:+ ".npy")
          = false) as ->
    by exact (prefix_slash_word c (cls +:+ "_" +:+ vpn +:+ ".npy") Hc).
  replace (root +:+ String c cls +:+ "/" +:+ vpn +:+ "/")
    with ((root +:+ String c cls +:+ "/" +:+ vpn) +:+ "/")
    by (by rewrite !append_assoc).
  rewrite endswith_append, orb_true_r.
  by rewrite !append_assoc.
Qed.

(** X11: for a class name and a tunnel type made of letters, digits,
    underscores and apostrophes, the array of the directory
    [RAW_DATA_DIR/class/type/] is saved as [class_type.npy] in that
    directory, which is the path the generator looks up for this class and
    this type. *)
Theorem export_path_is_the_lookup_pattern class_name vpn_type :
  word class_name = true -> class_name <> EmptyString ->
  word vpn_type = true -> vpn_type <> EmptyString ->
  let class_dir := RAW_DATA_DIR +:+ class_name +:+ "/" +:+ vpn_type +:+ "/" in
  output_filename class_dir = class_name +:+ "_" +:+ vpn_type +:+ ".npy" /\
  output_path class_dir = class_vpn_file_pattern class_name vpn_type.
Proof.
  intros Hc Hc' Hv Hv' class_dir.
  destruct (export_in_root RAW_DATA_DIR class_name vpn_type)
    as [Hname Hpath]; try done.
Qed.

End ExportFacts.

(** * More on the Dataset Assembler *)

Section AssemblerFacts.
Import Py Generator Spec.
Context {X : Type} `{SK : Sklearn X}.

(** X12: the dictionary built from a list of names has exactly the names
    of the list as keys, and maps a name to the index of its last
    occurrence in the list. *)
Theorem class_to_label_last_index (names : list string) name :
  (class_to_label names !! name = None <-> name ∉ names) /\
  (forall i,
     names !! i = Some name ->
     (forall j, names !! j = Some name -> (j <= i)%nat) ->
     class_to_label names !! name = Some (Z.of_nat i)).
Proof.
  induction names as [|x names [IHnone IHlast]] using rev_ind.
  - split; [| done]. split; [intros _; apply not_elem_of_nil | done].
  - rewrite class_to_label_snoc. split.
    + destruct (decide (x = name)) as [-> | Hne].
      * rewrite lookup_insert_eq. split; [done |].
        intros Hnot. destruct Hnot. apply elem_of_app. right.
        by apply elem_of_cons; left.
      * rewrite lookup_insert_ne, IHnone by done.
        rewrite elem_of_app, list_elem_of_singleton.
        split; [intros Hn [? | ?]; [done | congruence]
               | intros Hn ?; apply Hn; by left].
    + intros i Hi Hmax.
      destruct (decide (x = name)) as [-> | Hne].
      * rewrite lookup_insert_eq. do 2 f_equal.
        assert (length names <= i)%nat.
        { apply Hmax. by rewrite lookup_app_r, Nat.sub_diag by lia. }
        apply lookup_lt_Some in Hi. rewrite length_app in Hi.
        simpl in Hi. lia.
      * rewrite lookup_insert_ne by done.
        apply lookup_app_Some in Hi as [Hi | [_ Hi]].
        -- apply IHlast; [done |]. intros j Hj. apply Hmax.
           by apply lookup_app_l_Some.
        -- apply list_lookup_singleton_Some in Hi as [_ ?]. done.
Qed.

Lemma class_step_nonempty labels (fs : FileSystem X) vpn_type acc
    class_name acc' :
  class_step labels fs vpn_type acc class_name = Ok acc' ->
  Forall (fun x => x <> []) acc.1 -> Forall (fun x => x <> []) acc'.1.
Proof.
  unfold class_step. intros Hstep Hacc.
  destruct (glob fs _) as [|p rest]; [by injection Hstep as <- |].
  destruct (import_array fs p) as [d|]; [| by injection Hstep as <-].
  destruct (Z.gtb_spec (size d) 0) as [Hpos|Hpos];
    [| by injection Hstep as <-].
  destruct (labels !! class_name) as [label|]; [| done].
  simpl in Hstep. injection Hstep as <-. simpl.
  apply Forall_app. split; [done |]. constructor; [| done].
  intros ->. unfold size, len in Hpos. simpl in Hpos. lia.
Qed.

Lemma collect_from_nonempty labels (fs : FileSystem X) vpn_type names acc
    acc' :
  collect_from labels fs vpn_type names acc = Ok acc' ->
  Forall (fun x => x <> []) acc.1 -> Forall (fun x => x <> []) acc'.1.
Proof.
  revert acc. induction names as [|name names IH]; intros acc Hc Hacc.
  - by injection Hc as <-.
  - simpl in Hc.
    destruct (class_step labels fs vpn_type acc name) as [acc1|e] eqn:Hstep;
      [| done].
    simpl in Hc. eapply IH; [exact Hc |].
    by eapply class_step_nonempty.
Qed.

Lemma labels_length (names : list string) (fs : FileSystem X) vpn_type k
    (xs : list (list X)) (ys : list (list Z)) :
  Forall2 (fun x y =>
             exists j name,
               names !! j = Some name /\
               x = class_rows fs vpn_type name /\
               y = np_full (len x) (Z.of_nat (k + j))) xs ys ->
  length (concat ys) = length (concat xs).
Proof.
  induction 1 as [|x y xs ys (j & name & _ & _ & ->) _ IH]; [done |].
  simpl. by rewrite !length_app, IH, np_full_length.
Qed.

(** The combined arrays of a tunnel type. *)
Lemma collect_combined (fs : FileSystem X) vpn_type :
  exists all_x all_y,
    collect fs vpn_type = Ok (all_x, all_y) /\
    Forall (fun x => x <> []) all_x /\
    concat all_x = (tagged_rows fs vpn_type CLASS_NAMES).*1 /\
    concat all_y = (tagged_rows fs vpn_type CLASS_NAMES).*2.
Proof.
  destruct (collect_from_spec CLASS_TO_LABEL fs vpn_type CLASS_NAMES 0 ([], []))
    as (xs & ys & Hc & Hall & Hzip).
  { intros j name Hj. by apply class_label_is_index. }
  exists xs, ys. split; [exact Hc |].
  pose proof (labels_length _ _ _ _ _ _ Hall) as Hlen.
  assert (zip (concat xs) (concat ys) = tagged_rows fs vpn_type CLASS_NAMES)
    as Hz by exact Hzip.
  split; [| split].
  - by apply (collect_from_nonempty _ _ _ _ _ _ Hc).
  - rewrite <- Hz. symmetry. apply fst_zip. lia.
  - rewrite <- Hz. symmetry. apply snd_zip. lia.
Qed.



Lemma constant_sorted (c : Z) l :
  Forall (fun y => y = c) l -> StronglySorted Z.le l.
Proof.
  induction 1 as [|y l -> Hl IH]; constructor; [done |].
  eapply Forall_impl; [exact Hl |]. intros ? ->. lia.
Qed.

Lemma tagged_labels (f : string -> list X) k names :
  let labels :=
    (concat (imap (fun j name => (fun x => (x, Z.of_nat (k + j))) <$> f name)
               names)).*2 in
  StronglySorted Z.le labels /\
  Forall (fun y => Z.of_nat k <= y < Z.of_nat (k + length names)) labels.
Proof.
  revert k. induction names as [|name names IH]; intros k; simpl.
  - split; constructor.
  - destruct (IH (S k)) as [IHs IHr].
    assert (imap ((fun j name0 =>
                     (fun x => (x, Z.of_nat (k + j))) <$> f name0) ∘ S) names
            = imap (fun j name0 =>
                      (fun x => (x, Z.of_nat (S k + j))) <$> f name0) names)
      as ->.
    { apply imap_ext. intros j name' _. simpl.
      by replace (k + S j)%nat with (S (k + j)) by lia. }
    rewrite fmap_app, <- list_fmap_compose.
    assert (Forall (fun y => y = Z.of_nat (k + 0))
              ((snd ∘ (fun x => (x, Z.of_nat (k + 0)))) <$> f name)) as Hfirst.
    { apply Forall_fmap, Forall_forall. by intros x _. }
    split.
    + apply StronglySorted_app_2; [| | done].
      * intros y1 y2 Hy1 Hy2.
        rewrite Forall_forall in Hfirst, IHr.
        rewrite (Hfirst y1 Hy1). specialize (IHr y2 Hy2). lia.
      * by eapply constant_sorted.
    + apply Forall_app. split.
      * eapply Forall_impl; [exact Hfirst |]. intros y ->. lia.
      * eapply Forall_impl; [exact IHr |]. intros y Hy. simpl in Hy. lia.
Qed.

(** X15: the combined label array of a tunnel type is in non-decreasing
    order, one block per class in the order of [CLASS_NAMES], and each of
    its entries is an index into [CLASS_NAMES]. *)
Theorem combined_labels_are_sorted (fs : FileSystem X) vpn_type all_x all_y :
  collect fs vpn_type = Ok (all_x, all_y) ->
  StronglySorted Z.le (concat all_y) /\
  Forall (fun y => 0 <= y < len CLASS_NAMES) (concat all_y).
Proof.
  intros Hc.
  destruct (collect_combined fs vpn_type)
    as (all_x' & all_y' & Hc' & _ & _ & Hy).
  rewrite Hc in Hc'. injection Hc' as <- <-. rewrite Hy.
  apply (tagged_labels (class_rows fs vpn_type) 0 CLASS_NAMES).
Qed.

End AssemblerFacts.

(** * Bounds and the array of a directory *)

Section ArrayFacts.
Import Py Converter Spec Rows.
Context `{RT : Runtime}.

Lemma concat_filter_size (l : list (list (list flowpic))) :
  0 < flowpic_size ->
  concat (filter (fun ds => 0 < size ds) l) = concat l.
Proof.
  intros Hpos. induction l as [|ds l IH]; [done |].
  rewrite filter_cons. destruct (decide (0 < size ds)) as [Hs|Hs].
  - simpl. by rewrite IH.
  - rewrite IH. destruct ds as [|pic ds]; [done |].
    unfold size, len in Hs. simpl in Hs. nia.
Qed.

(** X16: when a histogram has at least one cell, the array of a class
    directory is the concatenation, in the order of the listing, of the
    arrays of its files whose name ends with [".csv"]: leaving out the
    files that yield nothing changes nothing. *)
Theorem class_array_is_the_concatenation_of_its_files fs dir_path :
  0 < flowpic_size ->
  (traffic_class_converter fs dir_path).1
  = concat (traffic_csv_converter fs <$> csv_files_in_dir fs dir_path).
Proof.
  intros Hpos. unfold traffic_class_converter. simpl.
  by apply concat_filter_size.
Qed.

(** X17: an accepted row yields at most one FlowPic per window: at most
    as many as the number of windows counted on line 97, and none when
    that number is not positive. *)
Theorem flowpics_per_row_are_bounded row length ts sizes last_ts st :
  accepted row length ts sizes -> last ts = Some last_ts ->
  len (dataset (process_row row st).2)
  <= len (dataset st) + Z.max 0 (window_count last_ts).
Proof.
  intros Hacc Hlast. rewrite row_effect. simpl.
  unfold row_flowpics. apply parse_outcome_accepted in Hacc. rewrite Hacc.
  unfold session_flowpics. rewrite Hlast. unfold len.
  rewrite length_app. case_decide; simpl; [| lia].
  rewrite length_fmap. unfold valid_windows.
  pose proof (length_filter
                (fun t => valid_segment (window_packets t ts sizes))
                (window_indices last_ts)) as Hf.
  pose proof (range_len (window_count last_ts)) as Hr.
  unfold window_indices, len in *. lia.
Qed.

End ArrayFacts.

(** * The further properties on concrete inputs *)

Section FurtherExamples.
Import Py Converter Spec Rows Demo Cases.

(** Five rows, two of which yield a FlowPic, from the initial state. *)
Lemma counters_follow_the_dataset_witness :
  counter
    (for_each [row33; short_row; row32; bad_row; row33b] process_row
       init_state).2
  = len (dataset
           (for_each [row33; short_row; row32; bad_row; row33b] process_row
              init_state).2).
Proof.
  apply (proj2 (counters_follow_the_dataset
                  [row33; short_row; row32; bad_row; row33b] init_state)).
  reflexivity.
Defined.

(** A row that declares [-1] packets is accepted, with no timestamp. *)
Lemma short_declaration_is_one_skip_witness :
  process_row negative_row init_state = (Ok tt, skip init_state).
Proof.
  apply (short_declaration_is_one_skip negative_row (-1) [] [7; 8]).
  - split; [by vm_compute | reflexivity].
  - lia.
Defined.

(** A session that ends at 130 seconds has two windows. *)
Lemma covered_timestamps_witness :
  window_count 130 = Qfloor (130 * (1 # 60)).
Proof.
  apply (proj2 (covered_timestamps 130 0)). by vm_compute.
Defined.

(** The timestamp 60 lies in windows 0 and 1. *)
Lemma windows_share_their_ends_witness :
  1 = 0 + 1 /\ (60 == inject_Z (1 * DELTA_T))%Q.
Proof.
  apply (proj1 (windows_share_their_ends 0 1 60)).
  - split; by vm_compute.
  - split; by vm_compute.
  - lia.
Defined.


(** Two listings of the same directory. *)
Lemma listing_order_permutes_the_rows_witness :
  (traffic_class_converter (two_files ["a.csv"; "notes.txt"; "b.csv"])
     "classes/chat/vpn/").1
    ≡ₚ (traffic_class_converter (two_files ["b.csv"; "a.csv"; "notes.txt"])
          "classes/chat/vpn/").1 /\
  (traffic_class_converter (two_files ["a.csv"; "notes.txt"; "b.csv"])
     "classes/chat/vpn/").2
    ≡ₚ (traffic_class_converter (two_files ["b.csv"; "a.csv"; "notes.txt"])
          "classes/chat/vpn/").2.
Proof.
  apply (listing_order_permutes_the_rows
           (two_files ["a.csv"; "notes.txt"; "b.csv"])
           (two_files ["b.csv"; "a.csv"; "notes.txt"])).
  - intros f. reflexivity.
  - apply (perm_trans (l' := ["a.csv"; "b.csv"; "notes.txt"]));
      [apply perm_skip, perm_swap | apply perm_swap].
Defined.

(** The file opened on [demo_fs]. *)
Lemma events_have_an_eligible_directory_witness :
  exists d,
    d ∈ Converter.glob demo_fs /\ eligible demo_fs d /\
    (Opened "classes/chat/vpn/a.csv" = Working_on d \/
     (exists fn,
        fn ∈ listdir demo_fs d /\ endswith fn ".csv" = true /\
        Opened "classes/chat/vpn/a.csv" = Opened (path_join d fn)) \/
     (Opened "classes/chat/vpn/a.csv"
      = Exported d (traffic_class_converter demo_fs d).1 /\
      (traffic_class_converter demo_fs d).1 <> [] /\ 0 < flowpic_size)).
Proof.
  apply (events_have_an_eligible_directory demo_fs
           (Opened "classes/chat/vpn/a.csv")).
  replace (iterate_all_classes demo_fs)
    with [Working_on "classes/chat/vpn/";
          Opened "classes/chat/vpn/a.csv";
          Exported "classes/chat/vpn/" [[(ts55, sz12)]];
          Working_on "classes/voip/tor/"] by reflexivity.
  apply elem_of_cons. right. apply elem_of_cons. by left.
Defined.

(** The directory of [demo_fs] with data. *)
Lemma class_array_is_the_concatenation_of_its_files_witness :
  (traffic_class_converter demo_fs "classes/chat/vpn/").1
  = concat (traffic_csv_converter demo_fs
              <$> csv_files_in_dir demo_fs "classes/chat/vpn/").
Proof.
  apply (class_array_is_the_concatenation_of_its_files demo_fs
           "classes/chat/vpn/").
  reflexivity.
Defined.

(** The row of 33 fields ends at 55 seconds: one window. *)
Lemma flowpics_per_row_are_bounded_witness :
  len (dataset (process_row row33 init_state).2)
  <= len (dataset init_state) + Z.max 0 (window_count 55).
Proof.
  apply (flowpics_per_row_are_bounded row33 12 ts55 sz12 55 init_state).
  - split; [by vm_compute | reflexivity].
  - reflexivity.
Defined.

End FurtherExamples.

Section FurtherGeneratorExamples.
Import Py Exporter Generator Spec Demo Cases.

(** The directory of ["file_transfer"] and ["vpn"]. *)
Lemma export_path_is_the_lookup_pattern_witness :
  output_filename (RAW_DATA_DIR +:+ "file_transfer" +:+ "/" +:+ "vpn" +:+ "/")
  = "file_transfer" +:+ "_" +:+ "vpn" +:+ ".npy" /\
  output_path (RAW_DATA_DIR +:+ "file_transfer" +:+ "/" +:+ "vpn" +:+ "/")
  = class_vpn_file_pattern "file_transfer" "vpn".
Proof.
  apply (export_path_is_the_lookup_pattern "file_transfer" "vpn");
    (reflexivity || discriminate).
Defined.

(** A name with a hyphen is cut at the hyphen: the exported file is not
    the one the generator looks for. *)
Example hyphen_breaks_the_name :
  output_filename (RAW_DATA_DIR +:+ "file-transfer" +:+ "/" +:+ "vpn" +:+ "/")
  = "transfer_vpn.npy".
Proof. reflexivity. Qed.

(** A list with a name twice. *)
Lemma class_to_label_last_index_witness :
  class_to_label ["a"; "b"; "a"] !! ("a" : string) = Some (Z.of_nat 2).
Proof.
  apply (proj2 (class_to_label_last_index ["a"; "b"; "a"] "a") 2%nat).
  - reflexivity.
  - intros j Hj. apply lookup_lt_Some in Hj. simpl in Hj. lia.
Defined.


(** The labels of ["vpn"] on [several_classes]. *)
Lemma combined_labels_are_sorted_witness :
  StronglySorted Z.le (concat [[0; 0]; [2]; [4; 4; 4]]) /\
  Forall (fun y => 0 <= y < len CLASS_NAMES) (concat [[0; 0]; [2]; [4; 4; 4]]).
Proof.
  apply (combined_labels_are_sorted several_classes "vpn"
           [[10; 11]; [20]; [30; 31; 32]] [[0; 0]; [2]; [4; 4; 4]]).
  reflexivity.
Defined.

End FurtherGeneratorExamples.
